(** * Methane leak mapper: a model of [src/viz_classes/leak_mapper.py]

    The development follows the file top to bottom: the base64 text
    encoding used for popup images, the tables read from the database,
    the [leakMapper] object with its methods as state transformers that
    may raise, and [main].  Statements about the pipeline come last. *)

From Stdlib Require Import ZArith List Bool Lia.
From Stdlib Require Import Strings.String Strings.Ascii Strings.Byte.
From Stdlib Require Import Floats Uint63 DecimalString Permutation.
Import ListNotations.

Local Open Scope Z_scope.
Local Open Scope string_scope.

(** ** Characters that cannot be written inside a literal *)

Definition dquote : string := String (ascii_of_nat 34) EmptyString.
Definition newline : string := String (ascii_of_nat 10) EmptyString.
Definition pad : ascii := "="%char.

(** ** base64.b64encode / base64.b64decode (RFC 4648, standard alphabet) *)

Module Base64.

Definition alphabet : list ascii :=
  list_ascii_of_string
    "ABCDEFGHIJKLMNOPQRSTUVWXYZabcdefghijklmnopqrstuvwxyz0123456789+/".

(** The character of a six-bit value. *)
Definition b64chr (n : Z) : ascii := nth (Z.to_nat n) alphabet "A"%char.

Fixpoint index_from (c : ascii) (l : list ascii) (i : Z) : option Z :=
  match l with
  | [] => None
  | d :: l' => if Ascii.eqb c d then Some i else index_from c l' (i + 1)
  end.

(** The six-bit value of a character of the alphabet. *)
Definition b64val (c : ascii) : option Z := index_from c alphabet 0.

Definition byte_val (b : byte) : Z := Z.of_N (Byte.to_N b).

Definition byte_of (z : Z) : byte :=
  match Byte.of_N (Z.to_N (z mod 256)) with
  | Some b => b
  | None => x00
  end.

(** Three input bytes form a 24-bit group, cut into four six-bit
    values; a final group of one or two bytes is filled with zero bits
    and closed with [=] signs. *)
Definition group (a b c : Z) : Z := a * 65536 + b * 256 + c.

Definition sextet (n : Z) (i : Z) : Z := (n / 64 ^ i) mod 64.

Fixpoint b64encode (bs : list byte) : string :=
  match bs with
  | [] => EmptyString
  | [a] =>
      let n := group (byte_val a) 0 0 in
      String (b64chr (sextet n 3)) (String (b64chr (sextet n 2))
        (String pad (String pad EmptyString)))
  | [a; b] =>
      let n := group (byte_val a) (byte_val b) 0 in
      String (b64chr (sextet n 3)) (String (b64chr (sextet n 2))
        (String (b64chr (sextet n 1)) (String pad EmptyString)))
  | a :: b :: c :: rest =>
      let n := group (byte_val a) (byte_val b) (byte_val c) in
      String (b64chr (sextet n 3)) (String (b64chr (sextet n 2))
        (String (b64chr (sextet n 1)) (String (b64chr (sextet n 0))
          (b64encode rest))))
  end.

Definition ungroup (s1 s2 s3 s4 : Z) : Z :=
  s1 * 262144 + s2 * 4096 + s3 * 64 + s4.

Definition is_empty (s : string) : bool :=
  match s with EmptyString => true | _ => false end.

(** Decoding reads four characters at a time; [=] signs are accepted
    only at the end of the last group. *)
Fixpoint b64decode (s : string) : option (list byte) :=
  match s with
  | EmptyString => Some []
  | String c1 (String c2 (String c3 (String c4 rest))) =>
      match b64val c1, b64val c2 with
      | Some s1, Some s2 =>
          if Ascii.eqb c4 pad && is_empty rest then
            if Ascii.eqb c3 pad then
              let n := ungroup s1 s2 0 0 in
              Some [byte_of (n / 65536)]
            else
              match b64val c3 with
              | Some s3 =>
                  let n := ungroup s1 s2 s3 0 in
                  Some [byte_of (n / 65536); byte_of (n / 256)]
              | None => None
              end
          else
            match b64val c3, b64val c4, b64decode rest with
            | Some s3, Some s4, Some bs =>
                let n := ungroup s1 s2 s3 s4 in
                Some (byte_of (n / 65536) :: byte_of (n / 256)
                        :: byte_of n :: bs)
            | _, _, _ => None
            end
      | _, _ => None
      end
  | _ => None
  end.

End Base64.

(** ** Python values: exceptions, results, text of an integer *)

Inductive exn : Type :=
| TypeError (msg : string)
| IndexError (msg : string)
| ValueError (msg : string)
| DatabaseError (msg : string).

Inductive result (A : Type) : Type :=
| Ok (a : A)
| Raise (e : exn).

Arguments Ok {A} a.
Arguments Raise {A} e.

(** [str(v)], as f-strings and [astype(str)] call it. *)
Class Str (A : Type) : Type := str : A -> string.

(** [Series.astype(str)] on a column of such values: the text of a
    value within its column.  pandas picks one format for a whole
    datetime column (the date alone when every value is at midnight), so
    the text of a value can differ from its [str]. *)
Class AstypeStr (A : Type) : Type := astype_str : list A -> A -> string.

(** [str(n)] for an integer. *)
Definition str_int (n : Z) : string := NilZero.string_of_int (Z.to_int n).

Definition quoted (s : string) : string := "'" ++ s ++ "'".

(** The list of names in a "missing ... required positional argument"
    message: ['a'], ['a' and 'b'], ['a', 'b', and 'c']. *)
Fixpoint name_tail (l : list string) : string :=
  match l with
  | [] => ""
  | [z] => "and " ++ quoted z
  | b :: l' => quoted b ++ ", " ++ name_tail l'
  end.

Definition name_list (names : list string) : string :=
  match names with
  | [] => ""
  | [a] => quoted a
  | [a; b] => quoted a ++ " and " ++ quoted b
  | _ => name_tail names
  end.

(** Binding positional arguments to the required parameters of
    [__init__(self, ...)]; [self] is already bound.  Only calls with
    positional arguments are covered, as [main] makes one; the message
    is the one Python up to 3.9 prints (later versions put the class
    name before [__init__]). *)
Definition bind_positional (params args : list string)
  : result (list string) :=
  let given := List.length args in
  let wanted := List.length params in
  if (given <? wanted)%nat then
    let missing := skipn given params in
    Raise (TypeError
             ("__init__() missing "
              ++ str_int (Z.of_nat (List.length missing))
              ++ " required positional argument"
              ++ (if (List.length missing =? 1)%nat then "" else "s")
              ++ ": " ++ name_list missing))
  else if (wanted <? given)%nat then
    Raise (TypeError
             ("__init__() takes " ++ str_int (Z.of_nat (S wanted))
              ++ " positional arguments but "
              ++ str_int (Z.of_nat (S given)) ++ " were given"))
  else Ok args.

(** ** Float columns: pandas reductions skip NaN *)

Module Series.

Definition dropna (xs : list float) : list float :=
  filter (fun v => negb (is_nan v)) xs.

Definition of_nat (n : nat) : float :=
  PrimFloat.of_uint63 (Uint63.of_Z (Z.of_nat n)).

(** Missing values count as zero in a sum. *)
Definition fillna0 (xs : list float) : list float :=
  List.map (fun v => if is_nan v then 0%float else v) xs.

(** numpy's sum of a float column: fewer than 8 values are added left
    to right; up to 128 values are added in eight lanes, the lanes are
    added in pairs and the values past the last full block of eight are
    added one by one; a longer column is cut in two near its middle, at
    a multiple of eight. *)
Fixpoint add_lanes (r a : list float) : list float :=
  match r, a with
  | v :: r', w :: a' => (v + w)%float :: add_lanes r' a'
  | _, _ => r
  end.

Fixpoint add_blocks (k : nat) (r a : list float) : list float * list float :=
  match k with
  | O => (r, a)
  | S k' => add_blocks k' (add_lanes r (firstn 8 a)) (skipn 8 a)
  end.

Definition unrolled_sum (a : list float) : float :=
  match add_blocks (List.length a / 8 - 1) (firstn 8 a) (skipn 8 a) with
  | ([r0; r1; r2; r3; r4; r5; r6; r7], rest) =>
      fold_left PrimFloat.add rest
        (((r0 + r1) + (r2 + r3)) + ((r4 + r5) + (r6 + r7)))%float
  | (_, _) => fold_left PrimFloat.add a 0%float
  end.

Fixpoint pairwise_sum (fuel : nat) (a : list float) : float :=
  let n := List.length a in
  if (n <? 8)%nat then fold_left PrimFloat.add a 0%float
  else if (n <=? 128)%nat then unrolled_sum a
  else match fuel with
       | O => unrolled_sum a
       | S fuel' =>
           let n2 := (n / 2 - (n / 2) mod 8)%nat in
           (pairwise_sum fuel' (firstn n2 a)
            + pairwise_sum fuel' (skipn n2 a))%float
       end.

(** [Series.mean()]: the sum of the column, its NaN values counted as
    zero, over the number of values that are not NaN; NaN when there is
    none. *)
Definition mean (xs : list float) : float :=
  match dropna xs with
  | [] => nan
  | v => (pairwise_sum (List.length xs) (fillna0 xs)
          / of_nat (List.length v))%float
  end.

(** [Series.min()] and [Series.max()] over the values that are not
    NaN, NaN when there is none. *)
Definition min (xs : list float) : float :=
  match dropna xs with
  | [] => nan
  | v :: vs => fold_left (fun m w => if (w <? m)%float then w else m) vs v
  end.

Definition max (xs : list float) : float :=
  match dropna xs with
  | [] => nan
  | v :: vs => fold_left (fun m w => if (m <? w)%float then w else m) vs v
  end.

End Series.

(** [m] is a least, [m] is a greatest value of the column among those
    that are not NaN. *)
Definition is_min_of (m : float) (xs : list float) : Prop :=
In m xs /\ is_nan m = false
/\ forall v, In v xs -> is_nan v = false -> (m <=? v)%float = true.

Definition is_max_of (m : float) (xs : list float) : Prop :=
In m xs /\ is_nan m = false
/\ forall v, In v xs -> is_nan v = false -> (v <=? m)%float = true.

(** The order of binary64 values that are not NaN, read off their sign,
    exponent and mantissa. *)
Module FloatOrder.
Local Open Scope Z_scope.

Definition rank (f : spec_float) : Z * Z * Z :=
match f with
| S754_zero _ => (0, 0, 0)
| S754_infinity s => (if s then -2 else 2, 0, 0)
| S754_nan => (0, 0, 0)
| S754_finite s m e => if s then (-1, - e, - Zpos m) else (1, e, Zpos m)
end.

Definition lex_compare (a b : Z * Z * Z) : comparison :=
match a, b with
| (a1, a2, a3), (b1, b2, b3) =>
    match a1 ?= b1 with
    | Eq => match a2 ?= b2 with
            | Eq => a3 ?= b3
            | c => c
            end
    | c => c
    end
end.

Definition is_nan_sf (f : spec_float) : bool :=
match f with S754_nan => true | _ => false end.

End FloatOrder.

(** ** shapely points and folium objects *)

Module Point.
Record t : Type := make { x : float; y : float }.
End Point.

(** [geopandas.points_from_xy(xs, ys)], on two columns of one frame:
    the point of a row has the row's [xs] value as [x] and its [ys]
    value as [y], NaN included. *)
Definition points_from_xy (xs ys : list float) : list Point.t :=
  List.map (fun p => Point.make (fst p) (snd p)) (combine xs ys).

(** A folium object is the data its constructor call and the calls of
    [add_to] and [fit_bounds] record, with the one check folium makes
    on the arguments passed here: a location must not hold NaN. *)
Module folium.

(** folium's [validate_location] on a pair of floats. *)
Definition validate_location (loc : list float) : result (list float) :=
  if existsb is_nan loc
  then Raise (ValueError "Location values cannot contain NaNs.")
  else Ok loc.

(** [folium.Marker(location=[lat, lon], popup=folium.Popup(html))] *)
Record Marker : Type :=
  { location : list float;
    popup : string }.

Record FeatureGroup : Type :=
  { name : string;
    markers : list Marker }.

Definition make_marker (loc : list float) (html : string) : result Marker :=
  match validate_location loc with
  | Ok l => Ok {| location := l; popup := html |}
  | Raise e => Raise e
  end.

Definition add_marker (m : Marker) (g : FeatureGroup) : FeatureGroup :=
  {| name := name g; markers := markers g ++ [m] |}.

Definition add_markers (ms : list Marker) (g : FeatureGroup) : FeatureGroup :=
{| name := name g; markers := markers g ++ ms |}.

Inductive Child : Type :=
| FitBounds (bounds : list (list float))
| Layer (g : FeatureGroup)
| LayerControl.

(** [folium.Map(location=center, zoom_start=..., control_scale=...,
    max_bounds=...)] and the children added to it, in order. *)
Record Map : Type :=
  { center : list float;
    zoom_start : Z;
    control_scale : bool;
    max_bounds : bool;
    children : list Child }.

Definition add_child (c : Child) (m : Map) : Map :=
  {| center := center m; zoom_start := zoom_start m;
     control_scale := control_scale m; max_bounds := max_bounds m;
     children := children m ++ [c] |}.

Definition make_map (loc : list float) (zoom : Z) (scale bounded : bool)
  : result Map :=
  match validate_location loc with
  | Ok l => Ok {| center := l; zoom_start := zoom; control_scale := scale;
                  max_bounds := bounded; children := [] |}
  | Raise e => Raise e
  end.

Definition fit_bounds (bounds : list (list float)) (m : Map) : Map :=
  add_child (FitBounds bounds) m.

(** What the page shows when it opens: the map starts at its centre
    and zoom, and each [fit_bounds] recorded on it is then applied in
    order, so the last one decides. *)
Inductive Viewport : Type :=
| CenterZoom (c : list float) (zoom : Z)
| Fitted (bounds : list (list float)).

Definition viewport (m : Map) : Viewport :=
  fold_left (fun v c => match c with
                        | FitBounds b => Fitted b
                        | _ => v
                        end)
            (children m) (CenterZoom (center m) (zoom_start m)).

End folium.

(** ** The photos table

    A row holds its id and the image as bytes. *)

Module Photo.
Record t : Type := make { photo_id : Z; photo : list byte }.
End Photo.

(** ** Module constants *)

Definition DATABASE : string := "methane_project_DB".
Definition TABLE_NAME : string := "measurements".

(** [str(current_dir / "data" / DATABASE)] on a POSIX path. *)
Definition PATH_TO_DB (current_dir : string) : string :=
  current_dir ++ "/data/" ++ DATABASE.

(** ** class leakMapper *)

Section LeakMapper.

(** The measurement schema is declared by the database layer, which is
    not part of this file: the cell type of [methane_level] and of a
    datetime column are left open, each with its [str], and the
    datetime values with their text in a converted column. *)
Context {Reading Stamp : Type} {StrReading : Str Reading}
        {StrStamp : Str Stamp} {AstypeStamp : AstypeStr Stamp}.

(** A timestamp cell is a datetime value, or text once the column has
    been converted with [astype(str)]. *)
Inductive timestamp_cell : Type :=
| Datetime (t : Stamp)
| Text (s : string).

Definition str_timestamp (c : timestamp_cell) : string :=
  match c with
  | Datetime t => str t
  | Text s => s
  end.

Definition is_datetime (c : timestamp_cell) : bool :=
  match c with Datetime _ => true | Text _ => false end.

Record Row : Type :=
  { photo_id : Z;
    longitude : float;
    latitude : float;
    methane_level : Reading;
    timestamp : timestamp_cell;
    type_of_infrastructure : string;
    leak : bool }.

(** A row of the GeoDataFrame: the measurement columns and the
    [geometry] column. *)
Record GeoRow : Type :=
  { attrs : Row;
    geometry : Point.t }.

Record GeoDataFrame : Type :=
  { rows : list GeoRow;
    crs : option Z }.

(** [gpd.GeoDataFrame(df, geometry=points)]: no CRS is given. *)
Definition GeoDataFrame_of (df : list Row) (points : list Point.t)
  : GeoDataFrame :=
  {| rows := List.map (fun p => {| attrs := fst p; geometry := snd p |})
                      (combine df points);
     crs := None |}.

(** [gdf.set_crs(epsg=..., inplace=True)].  geopandas refuses to
    replace a different CRS; the only CRS this class ever assigns is
    the one passed here. *)
Definition set_crs (epsg : Z) (g : GeoDataFrame) : GeoDataFrame :=
  {| rows := rows g; crs := Some epsg |}.

(** [pd.api.types.is_datetime64_any_dtype(gdf['timestamp'])]: the
    column holds datetime values. *)
Definition is_datetime64_any_dtype (g : GeoDataFrame) : bool :=
  forallb (fun r => is_datetime (timestamp (attrs r))) (rows g).

(** The datetime values of the timestamp column. *)
Definition stamps (rs : list GeoRow) : list Stamp :=
  flat_map (fun r => match timestamp (attrs r) with
                     | Datetime t => [t]
                     | Text _ => []
                     end) rs.

(** A row of the column converted with [astype(str)]: the datetime
    value becomes its text within the column [col]. *)
Definition astype_str_row (col : list Stamp) (r : GeoRow) : GeoRow :=
  {| attrs :=
       {| photo_id := photo_id (attrs r);
          longitude := longitude (attrs r);
          latitude := latitude (attrs r);
          methane_level := methane_level (attrs r);
          timestamp :=
            match timestamp (attrs r) with
            | Datetime t => Text (astype_str col t)
            | Text s => Text s
            end;
          type_of_infrastructure := type_of_infrastructure (attrs r);
          leak := leak (attrs r) |};
     geometry := geometry r |}.

(** The loop over the columns of the frame: of the measurement columns
    only [timestamp] can be a datetime column. *)
Definition timestamps_to_str (g : GeoDataFrame) : GeoDataFrame :=
  if is_datetime64_any_dtype g
  then {| rows := List.map (astype_str_row (stamps (rows g))) (rows g);
          crs := crs g |}
  else g.

Definition geometry_x (g : GeoDataFrame) : list float :=
  List.map (fun r => Point.x (geometry r)) (rows g).

Definition geometry_y (g : GeoDataFrame) : list float :=
  List.map (fun r => Point.y (geometry r)) (rows g).

(** What a run prints and writes. *)
Inductive printed : Type :=
| PStr (s : string)
| PFrame (d : list Row)
| PGeoFrame (g : GeoDataFrame)
| PExn (e : exn).

Inductive event : Type :=
| Printed (args : list printed)
| Saved (file : string) (m : folium.Map).

(** The database behind an engine: the fixed [photos] table and the
    measurement tables by name; reading either may raise. *)
Record Database : Type :=
  { photos : result (list Photo.t);
    tables : string -> result (list Row) }.

Variable sqlite : string -> Database.

Definition create_engine (url : string) : string := url.

Record leakMapper : Type :=
  { conn : option string;
    path_to_db : string;
    table : string;
    city : string;
    engine : string;
    df : option (list Row);
    gdf : option GeoDataFrame;
    map : option folium.Map;
    map_name : string;
    imgdf : list Photo.t }.

Definition set_conn (v : option string) (self : leakMapper) :=
  {| conn := v; path_to_db := path_to_db self; table := table self;
     city := city self; engine := engine self; df := df self;
     gdf := gdf self; map := map self; map_name := map_name self;
     imgdf := imgdf self |}.

Definition set_self_df (v : option (list Row)) (self : leakMapper) :=
  {| conn := conn self; path_to_db := path_to_db self;
     table := table self; city := city self; engine := engine self;
     df := v; gdf := gdf self; map := map self;
     map_name := map_name self; imgdf := imgdf self |}.

Definition set_self_gdf (v : option GeoDataFrame) (self : leakMapper) :=
  {| conn := conn self; path_to_db := path_to_db self;
     table := table self; city := city self; engine := engine self;
     df := df self; gdf := v; map := map self;
     map_name := map_name self; imgdf := imgdf self |}.

Definition set_self_map (v : option folium.Map) (self : leakMapper) :=
  {| conn := conn self; path_to_db := path_to_db self;
     table := table self; city := city self; engine := engine self;
     df := df self; gdf := gdf self; map := v;
     map_name := map_name self; imgdf := imgdf self |}.

(** A method: from the object to a result, the object afterwards and
    what was printed or written, in order. *)
Definition M (A : Type) : Type :=
  leakMapper -> result A * leakMapper * list event.

Definition ret {A : Type} (a : A) : M A := fun self => (Ok a, self, []).

Definition bind {A B : Type} (m : M A) (k : A -> M B) : M B :=
  fun self =>
    match m self with
    | (Ok a, self1, out1) =>
        match k a self1 with
        | (r, self2, out2) => (r, self2, (out1 ++ out2)%list)
        end
    | (Raise e, self1, out1) => (Raise e, self1, out1)
    end.

Definition print (args : list printed) : M unit :=
  fun self => (Ok tt, self, [Printed args]).

Definition raise {A : Type} (e : exn) : M A :=
  fun self => (Raise e, self, []).

(** A call that returns or raises and does not touch the object. *)
Definition lift {A : Type} (r : result A) : M A :=
  fun self => (r, self, []).

Definition modify (f : leakMapper -> leakMapper) : M unit :=
  fun self => (Ok tt, f self, []).

Definition get {A : Type} (f : leakMapper -> A) : M A :=
  fun self => (Ok (f self), self, []).

Notation "x <- m ;; k" := (bind m (fun x => k))
  (at level 61, m at next level, right associativity).
Notation "m ;;; k" := (bind m (fun _ => k))
  (at level 61, right associativity).

(** *** __init__ and the call [leakMapper(...)] *)

Definition read_sql_photos (eng : string) : result (list Photo.t) :=
  photos (sqlite eng).

Definition read_sql_table (name eng : string) : result (list Row) :=
  tables (sqlite eng) name.

(** The attributes are assigned in order; the last statement reads
    the [photos] table and stands outside any [try].  When it raises
    the constructor call yields no object. *)
Definition init (path_to_db' table_name city' : string)
  : result leakMapper * list event :=
  let eng := create_engine ("sqlite:///" ++ path_to_db') in
  match read_sql_photos eng with
  | Ok photos_df =>
      (Ok {| conn := None;
             path_to_db := path_to_db';
             table := table_name;
             city := city';
             engine := eng;
             df := None;
             gdf := None;
             map := None;
             map_name := city' ++ "_maine_map.html";
             imgdf := photos_df |}, [])
  | Raise e => (Raise e, [])
  end.

Definition init_params : list string := ["path_to_db"; "table_name"; "city"].

(** [leakMapper(...)]: the arguments are bound to the parameters of
    [__init__] before its body runs. *)
Definition new (args : list string) : result leakMapper * list event :=
  match bind_positional init_params args with
  | Ok [a; b; c] => init a b c
  | Ok _ => (Raise (TypeError "__init__()"), [])
  | Raise e => (Raise e, [])
  end.

(** *** connect, close_connection *)

Definition connect : M unit :=
  fun self =>
    match conn self with
    | None => (Ok tt, set_conn (Some (path_to_db self)) self, [])
    | Some _ => (Ok tt, self, [])
    end.

Definition close_connection : M unit :=
  fun self =>
    match conn self with
    | Some _ => (Ok tt, set_conn None self, [])
    | None => (Ok tt, self, [])
    end.

(** *** set_df *)

Definition set_df : M unit :=
  fun self =>
    match read_sql_table (table self) (engine self) with
    | Ok d => (Ok tt, set_self_df (Some d) self, [Printed [PFrame d]])
    | Raise e =>
        (Raise e, self,
         [Printed [PStr "Error retrieving data from databse."; PExn e]])
    end.

(** *** set_gdf

    With float coordinate columns of equal length nothing in the
    [try] block raises, so its handler has no case here.  The frame is
    a value of its own: later changes to it are not read back through
    [df]. *)
Definition set_gdf : M unit :=
  fun self =>
    match df self with
    | None =>
        (Ok tt, self,
         [Printed [PStr "DataFrame is not set. Call set_df() first."]])
    | Some d =>
        let g :=
          GeoDataFrame_of d
            (points_from_xy (List.map longitude d) (List.map latitude d)) in
        (Ok tt, set_self_gdf (Some g) self, [Printed [PGeoFrame g]])
    end.

(** *** get_image *)

(** [imgdf[imgdf['photo_id'] == photo_id]['photo'].values[0]] *)
Definition matching_photo (photos_df : list Photo.t) (pid : Z)
  : result (list byte) :=
  let values :=
    List.map Photo.photo
      (filter (fun p => (Photo.photo_id p =? pid)%Z) photos_df) in
  match nth_error values 0 with
  | Some blob => Ok blob
  | None =>
      Raise (IndexError "index 0 is out of bounds for axis 0 with size 0")
  end.

Definition img_prefix : string :=
  "<img src=" ++ dquote ++ "data:image/jpeg;base64,".

Definition img_suffix : string :=
  dquote ++ " width=" ++ dquote ++ "150" ++ dquote
  ++ " height=" ++ dquote ++ "100" ++ dquote ++ ">".

Definition no_image : string := "<p>No image available</p>".

Definition get_image (pid : Z) : M string :=
  fun self =>
    match matching_photo (imgdf self) pid with
    | Ok image_blob =>
        let image_base64 := Base64.b64encode image_blob in
        let image_html := img_prefix ++ image_base64 ++ img_suffix in
        (Ok image_html, self, [])
    | Raise (IndexError _) =>
        (Ok no_image, self,
         [Printed [PStr ("No matching image found for photo_id == "
                       ++ str_int pid)]])
    | Raise e => (Raise e, self, [])
    end.

(** *** plot_popups *)

Definition indent : string := "                        ".

(** The f-string of the popup body. *)
Definition popup_html (row : Row) (image_html : string) : string :=
  newline
  ++ indent ++ "<h4>Methane reading: " ++ str (methane_level row)
  ++ " ppm </h4>" ++ newline
  ++ indent ++ "<h4>Date/time recorded: " ++ str_timestamp (timestamp row)
  ++ " </h4>" ++ newline
  ++ indent ++ "<h4>Infastructure type: " ++ type_of_infrastructure row
  ++ " </h4>" ++ newline
  ++ indent ++ "<h4>Picture:</h4>" ++ newline
  ++ indent ++ image_html ++ newline
  ++ indent.

Definition Layers : Type := (folium.FeatureGroup * folium.FeatureGroup)%type.

(** The body of the loop over [gdf.iterrows()]; the two layers are
    the loop's local variables. *)
Definition place_row (row : GeoRow) (layers : Layers) : M Layers :=
  let loc := [latitude (attrs row); longitude (attrs row)] in
  if negb (existsb is_nan loc) then
    image_html <- get_image (photo_id (attrs row)) ;;
    let html := popup_html (attrs row) image_html in
    marker <- lift (folium.make_marker loc html) ;;
    if leak (attrs row)
    then ret (folium.add_marker marker (fst layers), snd layers)
    else ret (fst layers, folium.add_marker marker (snd layers))
  else ret layers.

Fixpoint iterrows (rs : list GeoRow) (layers : Layers) : M Layers :=
  match rs with
  | [] => ret layers
  | row :: rest =>
      layers' <- place_row row layers ;;
      iterrows rest layers'
  end.

Definition bounds_of (g : GeoDataFrame) : list (list float) :=
  let min_lon := Series.min (geometry_x g) in
  let max_lon := Series.max (geometry_x g) in
  let min_lat := Series.min (geometry_y g) in
  let max_lat := Series.max (geometry_y g) in
  [[min_lat; min_lon]; [max_lat; max_lon]].

Definition center_of (g : GeoDataFrame) : list float :=
  [Series.mean (geometry_y g); Series.mean (geometry_x g)].

Definition save : M unit :=
  fun self =>
    match map self with
    | Some m => (Ok tt, self, [Saved (map_name self) m])
    | None => (Raise (TypeError "'NoneType' object has no attribute 'save'"),
               self, [])
    end.

(** The frame after the first two steps: CRS set, datetime column
    converted. *)
Definition prepared (g : GeoDataFrame) : GeoDataFrame :=
  timestamps_to_str (set_crs 4326 g).

(** [self.gdf] is changed in place before the map is built, so it keeps
    the CRS and the converted column when [folium.Map] raises; [self.map]
    is assigned only when [folium.Map] returns. *)
Definition plot_popups : M unit :=
  fun self =>
    match gdf self with
    | None =>
        print [PStr "GeoDataFrame is not set. Call set_gdf() first."] self
    | Some g0 =>
        (let g := prepared g0 in
         modify (set_self_gdf (Some g)) ;;;
         m0 <- lift (folium.make_map (center_of g) 13 true true) ;;
         modify (set_self_map (Some m0)) ;;;
         let m1 := folium.fit_bounds (bounds_of g) m0 in
         modify (set_self_map (Some m1)) ;;;
         let layer_nonzero :=
           {| folium.name := "Non Zero"; folium.markers := [] |} in
         let layer_zero :=
           {| folium.name := "Zeros"; folium.markers := [] |} in
         layers <- iterrows (rows g) (layer_nonzero, layer_zero) ;;
         let m2 := folium.add_child (folium.Layer (fst layers)) m1 in
         let m3 := folium.add_child (folium.Layer (snd layers)) m2 in
         let m4 := folium.add_child folium.LayerControl m3 in
         modify (set_self_map (Some m4)) ;;;
         save ;;;
         name <- get map_name ;;
         print [PStr ("Map has been saved to " ++ name)]) self
    end.

(** *** execute *)

Definition execute : M unit :=
  set_df ;;; set_gdf ;;; plot_popups.

(** *** main *)

Definition main (current_dir : string) : result unit * list event :=
  match new [PATH_TO_DB current_dir; TABLE_NAME] with
  | (Ok mapper, out) =>
      match execute mapper with
      | (r, _, out') => (r, (out ++ out')%list)
      end
  | (Raise e, out) => (Raise e, out)
  end.

(** *** Any sequence of method calls on one object *)

Inductive call : Type :=
| Connect
| CloseConnection
| SetDf
| SetGdf
| GetImage (pid : Z)
| PlotPopups
| Execute.

Definition forget {A : Type} (m : M A) : M unit :=
fun self => match m self with
            | (Ok _, self', out) => (Ok tt, self', out)
            | (Raise e, self', out) => (Raise e, self', out)
            end.

Definition run_call (c : call) : M unit :=
match c with
| Connect => connect
| CloseConnection => close_connection
| SetDf => set_df
| SetGdf => set_gdf
| GetImage pid => forget (get_image pid)
| PlotPopups => plot_popups
| Execute => execute
end.

(** The object after a sequence of calls, each made whatever the
    previous ones returned or raised (a caller may catch and go on). *)
Fixpoint after_calls (cs : list call) (self : leakMapper) : leakMapper :=
match cs with
| [] => self
| c :: cs' => after_calls cs' (snd (fst (run_call c self)))
end.

(** A method leaves the photos table of the object as it was. *)
Definition keeps_imgdf {A : Type} (m : M A) : Prop :=
forall self, imgdf (snd (fst (m self))) = imgdf self.

(** *** Reading the result of the loop *)

(** The row passes the NaN test of the loop. *)
Definition placeable (row : GeoRow) : bool :=
negb (existsb is_nan [latitude (attrs row); longitude (attrs row)]).

(** The first row of the photos table with the given id. *)
Definition first_photo (photos_df : list Photo.t) (pid : Z)
  : option Photo.t :=
find (fun p => (Photo.photo_id p =? pid)%Z) photos_df.

Definition image_of (photos_df : list Photo.t) (pid : Z) : string :=
match first_photo photos_df pid with
| Some p => img_prefix ++ Base64.b64encode (Photo.photo p) ++ img_suffix
| None => no_image
end.

Definition image_log (photos_df : list Photo.t) (pid : Z) : list event :=
match first_photo photos_df pid with
| Some _ => []
| None => [Printed [PStr ("No matching image found for photo_id == "
                          ++ str_int pid)]]
end.

Definition marker_of (photos_df : list Photo.t) (row : GeoRow)
  : folium.Marker :=
{| folium.location := [latitude (attrs row); longitude (attrs row)];
   folium.popup :=
     popup_html (attrs row) (image_of photos_df (photo_id (attrs row))) |}.

(** The markers of the rows of [rs] that are placed and whose leak flag
    is [flag], in row order. *)
Definition markers_for (photos_df : list Photo.t) (flag : bool)
  (rs : list GeoRow) : list folium.Marker :=
List.map (marker_of photos_df)
  (filter (fun r => placeable r && Bool.eqb (leak (attrs r)) flag) rs).

Definition log_for (photos_df : list Photo.t) (rs : list GeoRow)
  : list event :=
flat_map (fun r => if placeable r
                   then image_log photos_df (photo_id (attrs r))
                   else []) rs.

(** The map a frame is drawn as: the viewport, then the two layers
    with the markers of the placed rows, then the layer control. *)
Definition map_of (photos_df : list Photo.t) (g : GeoDataFrame)
  : folium.Map :=
{| folium.center := center_of g;
   folium.zoom_start := 13;
   folium.control_scale := true;
   folium.max_bounds := true;
   folium.children :=
     [folium.FitBounds (bounds_of g);
      folium.Layer {| folium.name := "Non Zero";
                      folium.markers := markers_for photos_df true (rows g) |};
      folium.Layer {| folium.name := "Zeros";
                      folium.markers := markers_for photos_df false (rows g) |};
      folium.LayerControl] |}.

(** The layers attached to a map, in order. *)
Definition layers_of (m : folium.Map) : list folium.FeatureGroup :=
flat_map (fun c => match c with folium.Layer g => [g] | _ => [] end)
  (folium.children m).

(** The bounds passed to [fit_bounds]. *)
Definition fitted (m : folium.Map) : list (list (list float)) :=
flat_map (fun c => match c with folium.FitBounds b => [b] | _ => [] end)
  (folium.children m).

(** The bounding box of the rows that are placed. *)
Definition placed_bounds (g : GeoDataFrame) : list (list float) :=
bounds_of {| rows := filter placeable (rows g); crs := crs g |}.

(** The row as the popups show it: its timestamp is the text of the
    converted column when the column is a datetime column. *)
Definition shown (g : GeoDataFrame) (r : GeoRow) : GeoRow :=
if is_datetime64_any_dtype g then astype_str_row (stamps (rows g)) r else r.

(** The mean centre of the frame holds a NaN, which [folium.Map]
    refuses. *)
Definition centre_is_nan (g : GeoDataFrame) : bool :=
existsb is_nan (center_of g).

(** *** Readings of an outcome *)

(** The object a method leaves behind. *)
Definition state_after {A : Type} (m : M A) (self : leakMapper) : leakMapper :=
snd (fst (m self)).

(** The files a run wrote, in order. *)
Definition saved_files (out : list event) : list (string * folium.Map) :=
flat_map (fun e => match e with
                   | Saved file m => [(file, m)]
                   | Printed _ => []
                   end) out.

(** The attributes [__init__] derives from its arguments. *)
Definition configuration (self : leakMapper)
  : string * string * string * string * string :=
(path_to_db self, table self, city self, engine self, map_name self).

(** The configuration, the photos table and the connection. *)
Definition settings (self : leakMapper) :=
(configuration self, imgdf self, conn self).

(** The line [get_image] prints for an id it does not find. *)
Definition missing_line (pid : Z) : event :=
Printed [PStr ("No matching image found for photo_id == " ++ str_int pid)].

(** The photos table has a row with the id. *)
Definition has_photo (photos_df : list Photo.t) (pid : Z) : bool :=
existsb (fun p => (Photo.photo_id p =? pid)%Z) photos_df.

(** The geometry of every row is the point of its longitude and
    latitude columns. *)
Definition geometry_matches (g : GeoDataFrame) : Prop :=
Forall (fun r : GeoRow =>
          geometry r
          = Point.make (longitude (attrs r)) (latitude (attrs r)))
       (rows g).

Definition gdf_consistent (self : leakMapper) : Prop :=
match gdf self with
| Some g => geometry_matches g
| None => True
end.

(** The columns of a row that [plot_popups] does not convert. *)
Definition fixed_columns (r : GeoRow)
  : Z * float * float * Reading * string * bool * Point.t :=
(photo_id (attrs r), longitude (attrs r), latitude (attrs r),
 methane_level (attrs r), type_of_infrastructure (attrs r),
 leak (attrs r), geometry r).

(** A method leaves one reading of the object as it was. *)
Definition keeps {A B : Type} (f : leakMapper -> B) (m : M A) : Prop :=
forall self, f (state_after m self) = f self.

(** A method keeps a property of the object. *)
Definition preserves {A : Type} (P : leakMapper -> Prop) (m : M A) : Prop :=
forall self, P self -> P (state_after m self).

End LeakMapper.


(** ** Reading a string *)

(** [needle] occurs in [hay]. *)
Definition Contains (needle hay : string) : Prop :=
exists before after, hay = before ++ needle ++ after.

Fixpoint strip_prefix (p s : string) : option string :=
match p, s with
| EmptyString, _ => Some s
| String a p', String b s' =>
    if Ascii.eqb a b then strip_prefix p' s' else None
| String _ _, EmptyString => None
end.

Fixpoint until (c : ascii) (s : string) : string :=
match s with
| EmptyString => EmptyString
| String a s' => if Ascii.eqb a c then EmptyString else String a (until c s')
end.

(** No character of [s] is [c]. *)
Fixpoint avoids (c : ascii) (s : string) : bool :=
match s with
| EmptyString => true
| String a s' => negb (Ascii.eqb a c) && avoids c s'
end.

(** The base64 text of an image tag: what stands between the
    [data:image/jpeg;base64,] prefix and the closing quote of [src]. *)
Definition img_payload (tag : string) : option string :=
match strip_prefix img_prefix tag with
| Some s => Some (until (ascii_of_nat 34) s)
| None => None
end.

(** ** A concrete schema, photos table and measurement rows *)

Module Scenario.

(** Readings are integers.  A timestamp is kept as the text [str]
    gives it, date and time of day; none of the timestamps below is at
    midnight, so [astype(str)] gives the same text in every column made
    of them. *)
#[export] Instance str_ppm : Str Z := str_int.
#[export] Instance str_iso : Str string := fun s => s.
#[export] Instance astype_iso : AstypeStr string := fun _ s => s.

(** The first bytes of a JPEG file. *)
Definition jpeg : list byte := [xff; xd8; xff; xe0].

Definition photos_df : list Photo.t := [Photo.make 1 jpeg].

Definition row1 : @Row Z string :=
{| photo_id := 1; longitude := (-70.0)%float; latitude := 43.0%float;
   methane_level := 12; timestamp := Datetime "2023-07-12 10:15:00";
   type_of_infrastructure := "valve"; leak := true |}.

Definition row2 : @Row Z string :=
{| photo_id := 99; longitude := (-70.5)%float; latitude := 43.5%float;
   methane_level := 0; timestamp := Datetime "2023-07-12 10:40:00";
   type_of_infrastructure := "meter"; leak := false |}.

(** A reading whose latitude is missing. *)
Definition row_nan_lat : @Row Z string :=
{| photo_id := 1; longitude := (-80.0)%float; latitude := nan;
   methane_level := 3; timestamp := Datetime "2023-07-12 11:00:00";
   type_of_infrastructure := "valve"; leak := true |}.

(** A reading whose latitude is infinite. *)
Definition row_inf_lat : @Row Z string :=
{| photo_id := 1; longitude := (-70.0)%float; latitude := infinity;
   methane_level := 3; timestamp := Datetime "2023-07-12 11:05:00";
   type_of_infrastructure := "valve"; leak := true |}.

(** A reading whose latitude is minus infinity. *)
Definition row_ninf_lat : @Row Z string :=
{| photo_id := 1; longitude := (-70.0)%float; latitude := neg_infinity;
   methane_level := 3; timestamp := Datetime "2023-07-12 11:10:00";
   type_of_infrastructure := "valve"; leak := true |}.

(** Every engine reaches one database: the photos above and the given
    measurement rows under any table name. *)
Definition sqlite (measurements : list (@Row Z string))
  : string -> @Database Z string :=
fun _ => {| photos := Ok photos_df; tables := fun _ => Ok measurements |}.

(** A new object, as [leakMapper(path, "measurements", "portland")]
    returns it. *)
Definition fresh : @leakMapper Z string :=
{| conn := None;
   path_to_db := "data/methane_project_DB";
   table := "measurements";
   city := "portland";
   engine := "sqlite:///data/methane_project_DB";
   df := None;
   gdf := None;
   map := None;
   map_name := "portland_maine_map.html";
   imgdf := photos_df |}.

(** The object after [set_df] and [set_gdf]. *)
Definition projected (measurements : list (@Row Z string))
  : @leakMapper Z string :=
after_calls (sqlite measurements) [SetDf; SetGdf] fresh.

(** The object after [execute]. *)
Definition executed (measurements : list (@Row Z string))
  : @leakMapper Z string :=
after_calls (sqlite measurements) [Execute] fresh.

Definition geo (r : @Row Z string) : @GeoRow Z string :=
{| attrs := r; geometry := Point.make (longitude r) (latitude r) |}.

(** The frame [set_gdf] makes of a table. *)
Definition frame (measurements : list (@Row Z string))
  : @GeoDataFrame Z string :=
{| rows := List.map geo measurements; crs := None |}.

(** A database whose measurement tables cannot be read. *)
Definition sqlite_down : string -> @Database Z string :=
fun _ => {| photos := Ok photos_df;
            tables := fun _ => Raise (DatabaseError "no such table") |}.

(** An object whose photos table holds two photos for id 1 and one for
    id 2. *)
Definition two_photos : @leakMapper Z string :=
{| conn := None;
   path_to_db := "data/methane_project_DB";
   table := "measurements";
   city := "portland";
   engine := "sqlite:///data/methane_project_DB";
   df := None;
   gdf := None;
   map := None;
   map_name := "portland_maine_map.html";
   imgdf := [Photo.make 1 jpeg; Photo.make 2 [x00; x01]; Photo.make 1 []] |}.

End Scenario.

(** * Facts about the model *)

(** ** base64 *)

Module Base64Facts.
Import Base64.

(** The test vectors of RFC 4648, section 10. *)
Example b64encode_rfc4648 :
  List.map (fun w => b64encode (list_byte_of_string w))
    ["f"; "fo"; "foo"; "foob"; "fooba"; "foobar"]
  = ["Zg=="; "Zm8="; "Zm9v"; "Zm9vYg=="; "Zm9vYmE="; "Zm9vYmFy"].
Proof. reflexivity. Qed.

Example b64decode_rfc4648 :
  List.map b64decode ["Zg=="; "Zm8="; "Zm9v"; "Zm9vYg=="]
  = List.map (fun w => Some (list_byte_of_string w))
      ["f"; "fo"; "foo"; "foob"].
Proof. reflexivity. Qed.

Lemma list_ind3 {A : Type} (P : list A -> Prop) :
  P [] ->
  (forall a, P [a]) ->
  (forall a b, P [a; b]) ->
  (forall a b c l, P l -> P (a :: b :: c :: l)) ->
  forall l, P l.
Proof.
  intros H0 H1 H2 H3.
  fix IH 1.
  intros [|a [|b [|c l]]].
  - exact H0.
  - apply H1.
  - apply H2.
  - apply H3, IH.
Qed.

Lemma byte_val_range (b : byte) : 0 <= byte_val b < 256.
Proof.
  unfold byte_val. pose proof (Byte.to_N_bounded b). lia.
Qed.

Lemma byte_of_eq (z : Z) (b : byte) : z mod 256 = byte_val b -> byte_of z = b.
Proof.
  intros H. unfold byte_of. rewrite H. unfold byte_val.
  rewrite N2Z.id, Byte.of_to_N. reflexivity.
Qed.

Lemma sextet_range (n i : Z) : 0 <= sextet n i < 64.
Proof. unfold sextet. apply Z.mod_pos_bound. lia. Qed.

Lemma in_range_64 (n : Z) :
  0 <= n < 64 -> In n (List.map Z.of_nat (seq 0 64)).
Proof.
  intros H. apply in_map_iff. exists (Z.to_nat n). split.
  - lia.
  - apply in_seq. lia.
Qed.

Lemma b64val_b64chr (n : Z) : 0 <= n < 64 -> b64val (b64chr n) = Some n.
Proof.
  intros H.
  assert (All : forallb (fun k => match b64val (b64chr k) with
                                  | Some m => (m =? k)%Z
                                  | None => false
                                  end)
                        (List.map Z.of_nat (seq 0 64)) = true)
    by (vm_compute; reflexivity).
  rewrite forallb_forall in All.
  specialize (All n (in_range_64 n H)).
  destruct (b64val (b64chr n)) as [m|]; [|discriminate].
  apply Z.eqb_eq in All. congruence.
Qed.

Lemma b64chr_in_alphabet (n : Z) : In (b64chr n) alphabet.
Proof.
  unfold b64chr.
  destruct (nth_in_or_default (Z.to_nat n) alphabet "A"%char) as [H|H].
  - exact H.
  - rewrite H. vm_compute. auto.
Qed.

Lemma alphabet_avoids (c : ascii) :
  forallb (fun a => negb (Ascii.eqb a c)) alphabet = true ->
  forall n, Ascii.eqb (b64chr n) c = false.
Proof.
  intros H n. rewrite forallb_forall in H.
  apply negb_true_iff, H, b64chr_in_alphabet.
Qed.

Lemma b64chr_not_pad (n : Z) : Ascii.eqb (b64chr n) pad = false.
Proof. apply alphabet_avoids. vm_compute. reflexivity. Qed.

Lemma b64chr_not_dquote (n : Z) :
  Ascii.eqb (b64chr n) (ascii_of_nat 34) = false.
Proof. apply alphabet_avoids. vm_compute. reflexivity. Qed.

(** The four six-bit values of a group give the group back, and the
    group gives back its bytes. *)
Lemma ungroup_sextets (n : Z) :
  0 <= n < 16777216 ->
  ungroup (sextet n 3) (sextet n 2) (sextet n 1) (sextet n 0) = n.
Proof.
  intros H. unfold ungroup, sextet.
  change (64 ^ 3) with 262144. change (64 ^ 2) with 4096.
  change (64 ^ 1) with 64. change (64 ^ 0) with 1.
  Z.div_mod_to_equations. lia.
Qed.

Lemma group_range (a b c : Z) :
  0 <= a < 256 -> 0 <= b < 256 -> 0 <= c < 256 ->
  0 <= group a b c < 16777216.
Proof. unfold group. lia. Qed.

Lemma group_bytes (a b c : Z) :
  0 <= a < 256 -> 0 <= b < 256 -> 0 <= c < 256 ->
  (group a b c / 65536) mod 256 = a
  /\ (group a b c / 256) mod 256 = b
  /\ group a b c mod 256 = c.
Proof.
  intros Ha Hb Hc. unfold group.
  repeat split; Z.div_mod_to_equations; lia.
Qed.

Lemma sextet0_of_pair (a b : Z) : sextet (group a b 0) 0 = 0.
Proof.
  unfold sextet, group. change (64 ^ 0) with 1.
  Z.div_mod_to_equations. lia.
Qed.

Lemma sextet1_of_single (a : Z) : sextet (group a 0 0) 1 = 0.
Proof.
  unfold sextet, group. change (64 ^ 1) with 64.
  Z.div_mod_to_equations. lia.
Qed.

(** One step of the decoder on a group that is not the padded last
    one. *)
Lemma b64decode_full_group (s1 s2 s3 s4 : Z) (rest : string) :
  0 <= s1 < 64 -> 0 <= s2 < 64 -> 0 <= s3 < 64 -> 0 <= s4 < 64 ->
  b64decode (String (b64chr s1) (String (b64chr s2)
               (String (b64chr s3) (String (b64chr s4) rest)))) =
  match b64decode rest with
  | Some bs =>
      let n := ungroup s1 s2 s3 s4 in
      Some (byte_of (n / 65536) :: byte_of (n / 256) :: byte_of n :: bs)
  | None => None
  end.
Proof.
  intros H1 H2 H3 H4.
  cbn [b64decode].
  rewrite !b64val_b64chr by assumption.
  rewrite (b64chr_not_pad s4). cbn [andb].
  reflexivity.
Qed.

Lemma b64decode_two_bytes (s1 s2 s3 : Z) :
  0 <= s1 < 64 -> 0 <= s2 < 64 -> 0 <= s3 < 64 ->
  b64decode (String (b64chr s1) (String (b64chr s2)
               (String (b64chr s3) (String pad EmptyString)))) =
  let n := ungroup s1 s2 s3 0 in
  Some [byte_of (n / 65536); byte_of (n / 256)].
Proof.
  intros H1 H2 H3.
  cbn [b64decode].
  rewrite !b64val_b64chr by assumption.
  rewrite (b64chr_not_pad s3).
  reflexivity.
Qed.

Lemma b64decode_one_byte (s1 s2 : Z) :
  0 <= s1 < 64 -> 0 <= s2 < 64 ->
  b64decode (String (b64chr s1) (String (b64chr s2)
               (String pad (String pad EmptyString)))) =
  let n := ungroup s1 s2 0 0 in
  Some [byte_of (n / 65536)].
Proof.
  intros H1 H2.
  cbn [b64decode].
  rewrite !b64val_b64chr by assumption.
  reflexivity.
Qed.

(** Decoding what [b64encode] wrote gives the bytes back. *)
Lemma b64decode_b64encode (bs : list byte) :
  b64decode (b64encode bs) = Some bs.
Proof.
  induction bs as [|a|a b|a b c rest IH] using list_ind3.
  - reflexivity.
  - cbn [b64encode].
    pose proof (byte_val_range a) as Ha.
    rewrite b64decode_one_byte by apply sextet_range.
    cbv zeta. f_equal. f_equal.
    apply byte_of_eq.
    pose proof (ungroup_sextets (group (byte_val a) 0 0)) as U.
    rewrite sextet1_of_single, sextet0_of_pair in U.
    rewrite U by (apply group_range; lia).
    apply (group_bytes (byte_val a) 0 0); lia.
  - cbn [b64encode].
    pose proof (byte_val_range a) as Ha.
    pose proof (byte_val_range b) as Hb.
    rewrite b64decode_two_bytes by apply sextet_range.
    cbv zeta.
    pose proof (ungroup_sextets (group (byte_val a) (byte_val b) 0)) as U.
    rewrite sextet0_of_pair in U.
    rewrite U by (apply group_range; lia).
    destruct (group_bytes (byte_val a) (byte_val b) 0) as (G1 & G2 & _);
      try lia.
    f_equal. f_equal; [|f_equal]; apply byte_of_eq; assumption.
  - cbn [b64encode].
    pose proof (byte_val_range a) as Ha.
    pose proof (byte_val_range b) as Hb.
    pose proof (byte_val_range c) as Hc.
    rewrite b64decode_full_group by apply sextet_range.
    rewrite IH. cbv zeta.
    rewrite ungroup_sextets by (apply group_range; lia).
    destruct (group_bytes (byte_val a) (byte_val b) (byte_val c))
      as (G1 & G2 & G3); try lia.
    f_equal. f_equal; [|f_equal; [|f_equal]]; apply byte_of_eq; assumption.
Qed.

End Base64Facts.

(** ** The order of floats and the reductions of a column *)

Module FloatOrderFacts.
Import FloatOrder.
Local Open Scope Z_scope.

Lemma SFcompare_rank (x y : spec_float) :
  is_nan_sf x = false -> is_nan_sf y = false ->
  SFcompare x y = Some (lex_compare (rank x) (rank y)).
Proof.
  destruct x as [sx|sx| |sx mx ex], y as [sy|sy| |sy my ey];
    cbn [is_nan_sf]; intros Hx Hy; try discriminate;
    try destruct sx; try destruct sy; try reflexivity.
  cbn [SFcompare rank lex_compare]. rewrite Z.compare_refl.
  rewrite Z.compare_opp, (Z.compare_antisym ex ey).
  destruct (ex ?= ey); reflexivity.
Qed.


Lemma lex_compare_lt (a b : Z * Z * Z) :
  lex_compare a b = Lt <->
  fst (fst a) < fst (fst b)
  \/ (fst (fst a) = fst (fst b)
      /\ (snd (fst a) < snd (fst b)
          \/ (snd (fst a) = snd (fst b) /\ snd a < snd b))).
Proof.
  destruct a as [[a1 a2] a3], b as [[b1 b2] b3]. cbn.
  destruct (Z.compare_spec a1 b1), (Z.compare_spec a2 b2),
    (Z.compare_spec a3 b3); split; intros K; try discriminate;
    try reflexivity; lia.
Qed.

Lemma lex_compare_gt (a b : Z * Z * Z) :
  lex_compare a b = Gt <-> lex_compare b a = Lt.
Proof.
  destruct a as [[a1 a2] a3], b as [[b1 b2] b3]. cbn.
  rewrite (Z.compare_antisym a1 b1), (Z.compare_antisym a2 b2),
    (Z.compare_antisym a3 b3).
  destruct (a1 ?= b1), (a2 ?= b2), (a3 ?= b3); cbn; split; intros H;
    try discriminate; reflexivity.
Qed.

Lemma is_nan_Prim2SF (x : float) : is_nan x = is_nan_sf (Prim2SF x).
Proof.
  unfold is_nan. rewrite FloatAxioms.eqb_spec. unfold SFeqb.
  destruct (Prim2SF x) as [s|s| |s m e]; cbn.
  - reflexivity.
  - destruct s; reflexivity.
  - reflexivity.
  - rewrite Z.compare_refl, Pos.compare_cont_refl. destruct s; reflexivity.
Qed.

(** On floats that are not NaN, [<?] and [<=?] are the strict and the
    large side of one total preorder. *)
Lemma float_ltb_lex (x y : float) :
  is_nan x = false -> is_nan y = false ->
  (x <? y)%float = true
  <-> lex_compare (rank (Prim2SF x)) (rank (Prim2SF y)) = Lt.
Proof.
  intros Hx Hy. rewrite is_nan_Prim2SF in Hx, Hy.
  rewrite FloatAxioms.ltb_spec. unfold SFltb. rewrite (SFcompare_rank _ _ Hx Hy).
  destruct (lex_compare _ _); split; intros H; try discriminate; reflexivity.
Qed.

Lemma float_leb_lex (x y : float) :
  is_nan x = false -> is_nan y = false ->
  (x <=? y)%float = true
  <-> lex_compare (rank (Prim2SF x)) (rank (Prim2SF y)) <> Gt.
Proof.
  intros Hx Hy. rewrite is_nan_Prim2SF in Hx, Hy.
  rewrite FloatAxioms.leb_spec. unfold SFleb. rewrite (SFcompare_rank _ _ Hx Hy).
  destruct (lex_compare _ _); split; intros H; try discriminate;
    try reflexivity; congruence.
Qed.

Lemma float_leb_refl (x : float) : is_nan x = false -> (x <=? x)%float = true.
Proof.
  intros Hx. apply float_leb_lex; try assumption.
  rewrite lex_compare_gt, lex_compare_lt. lia.
Qed.

Lemma float_leb_trans (x y z : float) :
  is_nan x = false -> is_nan y = false -> is_nan z = false ->
  (x <=? y)%float = true -> (y <=? z)%float = true ->
  (x <=? z)%float = true.
Proof.
  intros Hx Hy Hz. rewrite !float_leb_lex by assumption.
  rewrite !lex_compare_gt, !lex_compare_lt. lia.
Qed.

Lemma float_ltb_leb (x y : float) :
  is_nan x = false -> is_nan y = false ->
  (x <? y)%float = true -> (x <=? y)%float = true.
Proof.
  intros Hx Hy. rewrite float_ltb_lex, float_leb_lex by assumption.
  rewrite lex_compare_gt, !lex_compare_lt. lia.
Qed.

Lemma float_not_ltb_leb (x y : float) :
  is_nan x = false -> is_nan y = false ->
  (x <? y)%float = false -> (y <=? x)%float = true.
Proof.
  intros Hx Hy H. apply float_leb_lex; try assumption.
  rewrite lex_compare_gt. intros Hlt.
  apply (float_ltb_lex x y Hx Hy) in Hlt. congruence.
Qed.

(** The running minimum of [Series.min] and the running maximum of
    [Series.max] over values that are not NaN. *)
Lemma fold_min_spec (vs : list float) (v : float) :
  is_nan v = false ->
  Forall (fun w => is_nan w = false) vs ->
  let r := fold_left (fun m w => if (w <? m)%float then w else m) vs v in
  In r (v :: vs) /\ is_nan r = false
  /\ forall w, In w (v :: vs) -> (r <=? w)%float = true.
Proof.
  revert v. induction vs as [|w vs IH]; intros v Hv Hvs; cbn [fold_left].
  - split; [left; reflexivity|]. split; [exact Hv|].
    intros w [<-|[]]. apply float_leb_refl, Hv.
  - inversion Hvs as [|w' vs' Hw Hvs' E]; subst.
    set (a := if (w <? v)%float then w else v).
    assert (Ha : is_nan a = false /\ (a = v \/ a = w)
                 /\ (a <=? v)%float = true /\ (a <=? w)%float = true).
    { subst a. destruct (w <? v)%float eqn:E.
      - repeat split; auto using float_leb_refl, float_ltb_leb.
      - repeat split; auto using float_leb_refl, float_not_ltb_leb. }
    destruct Ha as (Hna & Hin & Hav & Haw).
    destruct (IH a Hna Hvs') as (Hr & Hnr & Hle).
    split.
    { destruct Hr as [Hr|Hr].
      - rewrite <- Hr. destruct Hin as [->| ->]; cbn; auto.
      - right. right. exact Hr. }
    split; [exact Hnr|].
    intros x [<-|[<-|Hx]].
    + apply (float_leb_trans _ a); auto. apply Hle. left. reflexivity.
    + apply (float_leb_trans _ a); auto. apply Hle. left. reflexivity.
    + apply Hle. right. exact Hx.
Qed.

Lemma fold_max_spec (vs : list float) (v : float) :
  is_nan v = false ->
  Forall (fun w => is_nan w = false) vs ->
  let r := fold_left (fun m w => if (m <? w)%float then w else m) vs v in
  In r (v :: vs) /\ is_nan r = false
  /\ forall w, In w (v :: vs) -> (w <=? r)%float = true.
Proof.
  revert v. induction vs as [|w vs IH]; intros v Hv Hvs; cbn [fold_left].
  - split; [left; reflexivity|]. split; [exact Hv|].
    intros w [<-|[]]. apply float_leb_refl, Hv.
  - inversion Hvs as [|w' vs' Hw Hvs' E]; subst.
    set (a := if (v <? w)%float then w else v).
    assert (Ha : is_nan a = false /\ (a = v \/ a = w)
                 /\ (v <=? a)%float = true /\ (w <=? a)%float = true).
    { subst a. destruct (v <? w)%float eqn:E.
      - repeat split; auto using float_leb_refl, float_ltb_leb.
      - repeat split; auto using float_leb_refl, float_not_ltb_leb. }
    destruct Ha as (Hna & Hin & Hav & Haw).
    destruct (IH a Hna Hvs') as (Hr & Hnr & Hle).
    split.
    { destruct Hr as [Hr|Hr].
      - rewrite <- Hr. destruct Hin as [->| ->]; cbn; auto.
      - right. right. exact Hr. }
    split; [exact Hnr|].
    intros x [<-|[<-|Hx]].
    + apply (float_leb_trans _ a); auto. apply Hle. left. reflexivity.
    + apply (float_leb_trans _ a); auto. apply Hle. left. reflexivity.
    + apply Hle. right. exact Hx.
Qed.

Lemma dropna_spec (xs : list float) (v : float) :
  In v (Series.dropna xs) <-> In v xs /\ is_nan v = false.
Proof.
  unfold Series.dropna. rewrite filter_In, negb_true_iff. reflexivity.
Qed.

Lemma dropna_Forall (xs : list float) :
  Forall (fun w => is_nan w = false) (Series.dropna xs).
Proof. apply Forall_forall. intros v Hv. apply dropna_spec in Hv. tauto. Qed.

Lemma Series_min_is_min (xs : list float) :
  Series.dropna xs <> [] -> is_min_of (Series.min xs) xs.
Proof.
  intros Hne. unfold Series.min, is_min_of.
  pose proof (dropna_Forall xs) as Hall.
  pose proof (dropna_spec xs) as Hin.
  destruct (Series.dropna xs) as [|v vs]; [congruence|].
  inversion Hall as [|v' vs' Hv Hvs E]; subst.
  destruct (fold_min_spec vs v Hv Hvs) as (Hr & Hnr & Hle).
  split; [apply Hin, Hr|]. split; [exact Hnr|].
  intros w Hw Hnw. apply Hle, Hin. auto.
Qed.

Lemma Series_max_is_max (xs : list float) :
  Series.dropna xs <> [] -> is_max_of (Series.max xs) xs.
Proof.
  intros Hne. unfold Series.max, is_max_of.
  pose proof (dropna_Forall xs) as Hall.
  pose proof (dropna_spec xs) as Hin.
  destruct (Series.dropna xs) as [|v vs]; [congruence|].
  inversion Hall as [|v' vs' Hv Hvs E]; subst.
  destruct (fold_max_spec vs v Hv Hvs) as (Hr & Hnr & Hle).
  split; [apply Hin, Hr|]. split; [exact Hnr|].
  intros w Hw Hnw. apply Hle, Hin. auto.
Qed.

End FloatOrderFacts.

(** ** Strings and image tags *)

Lemma strip_prefix_app (p s : string) : strip_prefix p (p ++ s) = Some s.
Proof.
  induction p as [|a p IH]; cbn.
  - reflexivity.
  - rewrite Ascii.eqb_refl. exact IH.
Qed.

Lemma until_app (c : ascii) (s rest : string) :
  avoids c s = true -> until c (s ++ String c rest) = s.
Proof.
  induction s as [|a s IH]; cbn; intros H.
  - rewrite Ascii.eqb_refl. reflexivity.
  - apply andb_true_iff in H. destruct H as [Ha Hs].
    apply negb_true_iff in Ha. rewrite Ha, IH by exact Hs. reflexivity.
Qed.

Lemma b64encode_avoids_dquote (bs : list byte) :
  avoids (ascii_of_nat 34) (Base64.b64encode bs) = true.
Proof.
  induction bs as [|a|a b|a b c rest IH] using Base64Facts.list_ind3;
    cbn [Base64.b64encode avoids];
    rewrite ?Base64Facts.b64chr_not_dquote, ?IH; reflexivity.
Qed.

Lemma img_payload_tag (bs : list byte) :
  img_payload (img_prefix ++ Base64.b64encode bs ++ img_suffix)
  = Some (Base64.b64encode bs).
Proof.
  unfold img_payload. rewrite strip_prefix_app.
  change img_suffix with
    (String (ascii_of_nat 34)
       (" width=" ++ dquote ++ "150" ++ dquote
        ++ " height=" ++ dquote ++ "100" ++ dquote ++ ">")).
  rewrite until_app by apply b64encode_avoids_dquote.
  reflexivity.
Qed.

Lemma Contains_app (needle before after : string) :
  Contains needle (before ++ needle ++ after).
Proof. exists before, after. reflexivity. Qed.

Lemma append_assoc (a b c : string) : (a ++ b) ++ c = a ++ (b ++ c).
Proof.
  induction a as [|x a IH]; cbn.
  - reflexivity.
  - rewrite IH. reflexivity.
Qed.

Lemma Contains_wrap (needle hay before after : string) :
  Contains needle hay -> Contains needle (before ++ hay ++ after).
Proof.
  intros (u & v & ->).
  exists (before ++ u), (v ++ after).
  rewrite !append_assoc. reflexivity.
Qed.

Lemma append_nil_r (a : string) : a ++ "" = a.
Proof.
  induction a as [|x a IH]; cbn.
  - reflexivity.
  - rewrite IH. reflexivity.
Qed.

Lemma Contains_refl (s : string) : Contains s s.
Proof. exists "", "". cbn. rewrite append_nil_r. reflexivity. Qed.

Lemma Contains_skip (needle hay before : string) :
  Contains needle hay -> Contains needle (before ++ hay).
Proof.
  intros (u & v & ->). exists (before ++ u), v.
  rewrite append_assoc. reflexivity.
Qed.

Lemma Contains_head (needle hay after : string) :
  Contains needle hay -> Contains needle (hay ++ after).
Proof.
  intros (u & v & ->). exists u, (v ++ after).
  rewrite !append_assoc. reflexivity.
Qed.

Lemma no_image_text : Contains "No image available" no_image.
Proof. exists "<p>", "</p>". reflexivity. Qed.

(** ** The methods *)

Section LeakMapperFacts.

Context {Reading Stamp : Type} {StrReading : Str Reading}
        {StrStamp : Str Stamp} {AstypeStamp : AstypeStr Stamp}.
Variable sqlite : string -> @Database Reading Stamp.

Local Abbreviation Mapper := (@leakMapper Reading Stamp).
Local Abbreviation Frame := (@GeoDataFrame Reading Stamp).
Local Abbreviation GRow := (@GeoRow Reading Stamp).
Local Abbreviation MRow := (@Row Reading Stamp).

(** *** get_image *)

Lemma matching_photo_first (photos_df : list Photo.t) (pid : Z) :
  matching_photo photos_df pid =
  match first_photo photos_df pid with
  | Some p => Ok (Photo.photo p)
  | None => Raise (IndexError "index 0 is out of bounds for axis 0 with size 0")
  end.
Proof.
  unfold matching_photo, first_photo.
  induction photos_df as [|p l IH]; cbn.
  - reflexivity.
  - destruct (Photo.photo_id p =? pid)%Z; cbn.
    + reflexivity.
    + exact IH.
Qed.

Lemma get_image_eq (pid : Z) (self : Mapper) :
  get_image pid self =
  (Ok (image_of (imgdf self) pid), self, image_log (imgdf self) pid).
Proof.
  unfold get_image, image_of, image_log.
  rewrite matching_photo_first.
  destruct (first_photo (imgdf self) pid); reflexivity.
Qed.

Lemma first_photo_some (photos_df : list Photo.t) (pid : Z) :
  In pid (List.map Photo.photo_id photos_df) ->
  exists p, first_photo photos_df pid = Some p /\ Photo.photo_id p = pid.
Proof.
  unfold first_photo. induction photos_df as [|q l IH]; cbn.
  - intros [].
  - intros [H|H].
    + exists q. rewrite H, Z.eqb_refl. auto.
    + destruct (Photo.photo_id q =? pid)%Z eqn:E.
      * exists q. split; [reflexivity|]. apply Z.eqb_eq, E.
      * apply IH, H.
Qed.

Lemma first_photo_none (photos_df : list Photo.t) (pid : Z) :
  ~ In pid (List.map Photo.photo_id photos_df) ->
  first_photo photos_df pid = None.
Proof.
  unfold first_photo. induction photos_df as [|q l IH]; cbn; intros H.
  - reflexivity.
  - destruct (Photo.photo_id q =? pid)%Z eqn:E.
    + apply Z.eqb_eq in E. tauto.
    + apply IH. tauto.
Qed.

Lemma first_photo_split (before after : list Photo.t) (p : Photo.t) :
  ~ In (Photo.photo_id p) (List.map Photo.photo_id before) ->
  first_photo (before ++ p :: after) (Photo.photo_id p) = Some p.
Proof.
  unfold first_photo. induction before as [|q l IH]; cbn; intros H.
  - rewrite Z.eqb_refl. reflexivity.
  - destruct (Photo.photo_id q =? Photo.photo_id p)%Z eqn:E.
    + apply Z.eqb_eq in E. tauto.
    + apply IH. tauto.
Qed.

(** *** The loop of plot_popups *)

Lemma placeable_iff (row : GRow) :
  placeable row = true <->
  is_nan (latitude (attrs row)) = false
  /\ is_nan (longitude (attrs row)) = false.
Proof.
  unfold placeable. cbn [existsb].
  destruct (is_nan (latitude (attrs row))),
    (is_nan (longitude (attrs row))); cbn; intuition congruence.
Qed.

(** The marker of a row that passed the NaN test is accepted by
    folium. *)
Lemma place_row_eq (row : GRow) (nz z : folium.FeatureGroup)
  (self : Mapper) :
  place_row row (nz, z) self =
  (Ok (if placeable row
       then if leak (attrs row)
            then (folium.add_marker (marker_of (imgdf self) row) nz, z)
            else (nz, folium.add_marker (marker_of (imgdf self) row) z)
       else (nz, z)),
   self,
   if placeable row
   then image_log (imgdf self) (photo_id (attrs row))
   else []).
Proof.
  unfold place_row, placeable.
  destruct (existsb is_nan [latitude (attrs row); longitude (attrs row)])
    eqn:E; cbn [negb].
  - reflexivity.
  - unfold bind at 1. rewrite get_image_eq.
    unfold bind, lift, folium.make_marker, folium.validate_location.
    rewrite E.
    destruct (leak (attrs row)); cbn; rewrite app_nil_r; reflexivity.
Qed.

Lemma add_markers_nil (g : folium.FeatureGroup) : folium.add_markers [] g = g.
Proof.
  destruct g. unfold folium.add_markers. cbn. rewrite app_nil_r. reflexivity.
Qed.

Lemma add_markers_cons (m : folium.Marker) (ms : list folium.Marker)
  (g : folium.FeatureGroup) :
  folium.add_markers ms (folium.add_marker m g) = folium.add_markers (m :: ms) g.
Proof.
  unfold folium.add_markers, folium.add_marker. cbn.
  rewrite <- app_assoc. reflexivity.
Qed.

Lemma iterrows_eq (rs : list GRow) (nz z : folium.FeatureGroup)
  (self : Mapper) :
  iterrows rs (nz, z) self =
  (Ok (folium.add_markers (markers_for (imgdf self) true rs) nz,
       folium.add_markers (markers_for (imgdf self) false rs) z),
   self,
   log_for (imgdf self) rs).
Proof.
  revert nz z. induction rs as [|row rest IH]; intros nz z.
  - cbn. rewrite !add_markers_nil. reflexivity.
  - cbn [iterrows]. unfold bind. rewrite place_row_eq.
    unfold markers_for, log_for. cbn [filter flat_map].
    destruct (placeable row); cbn [andb].
    + destruct (leak (attrs row)); cbn [Bool.eqb]; rewrite IH;
        cbn [List.map]; rewrite add_markers_cons; reflexivity.
    + rewrite IH. reflexivity.
Qed.

(** *** The frame plot_popups works on *)

Lemma rows_prepared (g : Frame) :
  rows (prepared g) = List.map (shown g) (rows g).
Proof.
  unfold prepared, timestamps_to_str, shown.
  change (is_datetime64_any_dtype (set_crs 4326 g))
    with (is_datetime64_any_dtype g).
  destruct (is_datetime64_any_dtype g); cbn [rows set_crs].
  - reflexivity.
  - symmetry. apply List.map_id.
Qed.

Lemma crs_prepared (g : Frame) : crs (prepared g) = Some 4326.
Proof.
  unfold prepared, timestamps_to_str.
  destruct (is_datetime64_any_dtype (set_crs 4326 g)); reflexivity.
Qed.

Lemma fixed_columns_shown (g : Frame) (r : GRow) :
  fixed_columns (shown g r) = fixed_columns r.
Proof. unfold shown. destruct (is_datetime64_any_dtype g); reflexivity. Qed.

Lemma placeable_shown (g : Frame) (r : GRow) :
  placeable (shown g r) = placeable r.
Proof. unfold shown. destruct (is_datetime64_any_dtype g); reflexivity. Qed.

Lemma leak_shown (g : Frame) (r : GRow) :
  leak (attrs (shown g r)) = leak (attrs r).
Proof. unfold shown. destruct (is_datetime64_any_dtype g); reflexivity. Qed.

Lemma photo_id_shown (g : Frame) (r : GRow) :
  photo_id (attrs (shown g r)) = photo_id (attrs r).
Proof. unfold shown. destruct (is_datetime64_any_dtype g); reflexivity. Qed.

Lemma geometry_shown (g : Frame) (r : GRow) :
  geometry (shown g r) = geometry r.
Proof. unfold shown. destruct (is_datetime64_any_dtype g); reflexivity. Qed.

Lemma location_shown (photos_df : list Photo.t) (g : Frame) (r : GRow) :
  folium.location (marker_of photos_df (shown g r))
  = [latitude (attrs r); longitude (attrs r)].
Proof. unfold shown. destruct (is_datetime64_any_dtype g); reflexivity. Qed.

Lemma geometry_x_prepared (g : Frame) :
  geometry_x (prepared g) = geometry_x g.
Proof.
  unfold geometry_x. rewrite rows_prepared, List.map_map.
  apply List.map_ext. intros r. rewrite geometry_shown. reflexivity.
Qed.

Lemma geometry_y_prepared (g : Frame) :
  geometry_y (prepared g) = geometry_y g.
Proof.
  unfold geometry_y. rewrite rows_prepared, List.map_map.
  apply List.map_ext. intros r. rewrite geometry_shown. reflexivity.
Qed.

Lemma center_of_prepared (g : Frame) : center_of (prepared g) = center_of g.
Proof.
  unfold center_of. rewrite geometry_x_prepared, geometry_y_prepared.
  reflexivity.
Qed.

Lemma bounds_of_prepared (g : Frame) : bounds_of (prepared g) = bounds_of g.
Proof.
  unfold bounds_of. rewrite geometry_x_prepared, geometry_y_prepared.
  reflexivity.
Qed.

Lemma log_for_shown (photos_df : list Photo.t) (g : Frame) (rs : list GRow) :
  log_for photos_df (List.map (shown g) rs) = log_for photos_df rs.
Proof.
  unfold log_for. induction rs as [|r rs IH]; cbn [List.map flat_map].
  - reflexivity.
  - rewrite IH, placeable_shown, photo_id_shown. reflexivity.
Qed.

Lemma log_for_prepared (photos_df : list Photo.t) (g : Frame) :
  log_for photos_df (rows (prepared g)) = log_for photos_df (rows g).
Proof. rewrite rows_prepared. apply log_for_shown. Qed.

Lemma filter_shown (g : Frame) (f : GRow -> bool) (rs : list GRow) :
  (forall r, f (shown g r) = f r) ->
  filter f (List.map (shown g) rs) = List.map (shown g) (filter f rs).
Proof.
  intros Hf. induction rs as [|r rs IH]; cbn [List.map filter].
  - reflexivity.
  - rewrite Hf. destruct (f r); cbn [List.map]; rewrite IH; reflexivity.
Qed.

(** The markers of a layer are those of the selected rows, each shown
    with the converted timestamp. *)
Lemma markers_for_prepared (photos_df : list Photo.t) (flag : bool)
  (g : Frame) :
  markers_for photos_df flag (rows (prepared g))
  = List.map (fun r => marker_of photos_df (shown g r))
      (filter (fun r : GRow =>
                 placeable r && Bool.eqb (leak (attrs r)) flag) (rows g)).
Proof.
  unfold markers_for. rewrite rows_prepared, filter_shown, List.map_map.
  - reflexivity.
  - intros r. rewrite placeable_shown, leak_shown. reflexivity.
Qed.

Lemma timestamps_to_str_twice (g : Frame) :
  timestamps_to_str (timestamps_to_str g) = timestamps_to_str g.
Proof.
  destruct g as [rs c].
  assert (H : timestamps_to_str {| rows := rs; crs := c |}
              = if forallb (fun r : GRow => is_datetime (timestamp (attrs r)))
                     rs
                then {| rows := List.map (astype_str_row (stamps rs)) rs;
                        crs := c |}
                else {| rows := rs; crs := c |}) by reflexivity.
  rewrite H.
  destruct (forallb (fun r : GRow => is_datetime (timestamp (attrs r))) rs)
    eqn:E.
  - unfold timestamps_to_str, is_datetime64_any_dtype. cbn [rows crs].
    destruct rs as [|r rs]; [reflexivity|].
    cbn [forallb] in E. apply andb_true_iff in E. destruct E as [Er _].
    cbn [List.map forallb].
    unfold astype_str_row at 1. cbn [attrs timestamp].
    destruct (timestamp (attrs r)); [|discriminate].
    reflexivity.
  - unfold timestamps_to_str, is_datetime64_any_dtype. cbn [rows].
    rewrite E. reflexivity.
Qed.

(** Once converted, the frame is not changed by the first two steps. *)
Lemma prepared_twice (g : Frame) : prepared (prepared g) = prepared g.
Proof.
  unfold prepared.
  assert (E : set_crs 4326 (timestamps_to_str (set_crs 4326 g))
              = timestamps_to_str (set_crs 4326 g)).
  { unfold timestamps_to_str.
    destruct (is_datetime64_any_dtype (set_crs 4326 g)); reflexivity. }
  rewrite E. apply timestamps_to_str_twice.
Qed.

Lemma centre_is_nan_prepared (g : Frame) :
  centre_is_nan (prepared g) = centre_is_nan g.
Proof. unfold centre_is_nan. rewrite center_of_prepared. reflexivity. Qed.

(** *** plot_popups in closed form *)

(** When folium accepts the centre. *)
Lemma plot_popups_eq (self : Mapper) (g : Frame) :
  gdf self = Some g ->
  centre_is_nan g = false ->
  plot_popups self =
  (Ok tt,
   set_self_map (Some (map_of (imgdf self) (prepared g)))
     (set_self_gdf (Some (prepared g)) self),
   (log_for (imgdf self) (rows g)
    ++ [Saved (map_name self) (map_of (imgdf self) (prepared g));
        Printed [PStr ("Map has been saved to " ++ map_name self)]])%list).
Proof.
  intros Hg Hc. unfold plot_popups. rewrite Hg.
  unfold bind at 1. cbn [modify].
  unfold bind at 1. unfold lift, folium.make_map, folium.validate_location.
  rewrite <- centre_is_nan_prepared in Hc. unfold centre_is_nan in Hc.
  rewrite Hc.
  unfold bind at 1. cbn [modify].
  unfold bind at 1. cbn [modify].
  unfold bind at 1. rewrite iterrows_eq.
  cbn [imgdf set_self_map set_self_gdf fst snd].
  rewrite log_for_prepared.
  reflexivity.
Qed.

(** When it does not: the frame has been changed in place, no map
    exists and nothing has been printed or written. *)
Lemma plot_popups_raises (self : Mapper) (g : Frame) :
  gdf self = Some g ->
  centre_is_nan g = true ->
  plot_popups self =
  (Raise (ValueError "Location values cannot contain NaNs."),
   set_self_gdf (Some (prepared g)) self, []).
Proof.
  intros Hg Hc. unfold plot_popups. rewrite Hg.
  unfold bind at 1. cbn [modify].
  unfold bind at 1. unfold lift, folium.make_map, folium.validate_location.
  rewrite <- centre_is_nan_prepared in Hc. unfold centre_is_nan in Hc.
  rewrite Hc. reflexivity.
Qed.

Lemma plot_popups_map (self : Mapper) (g : Frame) :
  gdf self = Some g ->
  centre_is_nan g = false ->
  exists self' out,
    plot_popups self = (Ok tt, self', out)
    /\ map self' = Some (map_of (imgdf self) (prepared g))
    /\ gdf self' = Some (prepared g)
    /\ imgdf self' = imgdf self.
Proof.
  intros Hg Hc. eexists _, _. rewrite (plot_popups_eq self g Hg Hc).
  repeat split.
Qed.

(** Whatever [plot_popups] returns, the frame it leaves is the frame
    it worked on. *)
Lemma gdf_after_plot_popups (self : Mapper) (g : Frame) :
  gdf self = Some g ->
  gdf (state_after plot_popups self) = Some (prepared g).
Proof.
  intros Hg. unfold state_after.
  destruct (centre_is_nan g) eqn:Hc.
  - rewrite (plot_popups_raises self g Hg Hc). reflexivity.
  - rewrite (plot_popups_eq self g Hg Hc). reflexivity.
Qed.

Lemma markers_for_split (photos_df : list Photo.t) (flag : bool)
  (before after : list GRow) (row : GRow) :
  markers_for photos_df flag (before ++ row :: after) =
  (markers_for photos_df flag before
   ++ (if placeable row && Bool.eqb (leak (attrs row)) flag
       then [marker_of photos_df row] else [])
   ++ markers_for photos_df flag after)%list.
Proof.
  unfold markers_for. rewrite filter_app, List.map_app. cbn [filter].
  destruct (placeable row && Bool.eqb (leak (attrs row)) flag); reflexivity.
Qed.

Lemma log_for_split (photos_df : list Photo.t) (before after : list GRow)
  (row : GRow) :
  log_for photos_df (before ++ row :: after) =
  (log_for photos_df before
   ++ (if placeable row
       then image_log photos_df (photo_id (attrs row)) else [])
   ++ log_for photos_df after)%list.
Proof.
  unfold log_for. rewrite flat_map_app. reflexivity.
Qed.


Lemma rows_prepared_split (g : Frame) (before after : list GRow)
  (row : GRow) :
  rows g = (before ++ row :: after)%list ->
  rows (prepared g)
  = (List.map (shown g) before ++ shown g row
       :: List.map (shown g) after)%list.
Proof.
  intros H. rewrite rows_prepared, H, List.map_app. reflexivity.
Qed.

(** *** Placement of rows *)

(** C1 (as amended): when folium accepts the mean centre of the frame,
    [plot_popups] produces exactly one marker for a row whose latitude
    and longitude are both not NaN, at the row's position in row order:
    it stands in the "Non Zero" layer when the row's leak flag is true
    and in the "Zeros" layer otherwise, and the other layer has no
    marker for the row. *)
Theorem plot_popups_one_marker_per_row (self : Mapper) (g : Frame)
  (before after : list GRow) (row : GRow) :
  gdf self = Some g ->
  rows g = (before ++ row :: after)%list ->
  is_nan (latitude (attrs row)) = false ->
  is_nan (longitude (attrs row)) = false ->
  centre_is_nan g = false ->
  exists self' out m nonzero zeros,
    plot_popups self = (Ok tt, self', out)
    /\ map self' = Some m
    /\ layers_of m = [nonzero; zeros]
    /\ folium.name nonzero = "Non Zero"
    /\ folium.name zeros = "Zeros"
    /\ folium.location (marker_of (imgdf self) (shown g row))
       = [latitude (attrs row); longitude (attrs row)]
    /\ folium.markers nonzero =
       (markers_for (imgdf self) true (List.map (shown g) before)
        ++ (if leak (attrs row)
            then [marker_of (imgdf self) (shown g row)] else [])
        ++ markers_for (imgdf self) true (List.map (shown g) after))%list
    /\ folium.markers zeros =
       (markers_for (imgdf self) false (List.map (shown g) before)
        ++ (if leak (attrs row)
            then [] else [marker_of (imgdf self) (shown g row)])
        ++ markers_for (imgdf self) false (List.map (shown g) after))%list.
Proof.
  intros Hg Hrows Hlat Hlon Hc.
  destruct (plot_popups_map self g Hg Hc)
    as (self' & out & Hrun & Hmap & _).
  assert (Hp : placeable (shown g row) = true)
    by (rewrite placeable_shown; apply placeable_iff; auto).
  exists self', out, (map_of (imgdf self) (prepared g)).
  eexists _, _. split; [exact Hrun|]. split; [exact Hmap|].
  split; [reflexivity|]. cbn [folium.name folium.markers].
  split; [reflexivity|]. split; [reflexivity|].
  split; [apply location_shown|].
  rewrite (rows_prepared_split g before after row Hrows).
  rewrite !markers_for_split, Hp, leak_shown.
  split; destruct (leak (attrs row)); reflexivity.
Qed.



(** C7: [set_gdf] called while [df] is None, and [plot_popups] called
    while [gdf] is None, print their diagnostic and return without
    raising; the object is left as it was. *)
Theorem stage_without_input_returns_early (self : Mapper) :
  (df self = None ->
   set_gdf self =
   (Ok tt, self,
    [Printed [PStr "DataFrame is not set. Call set_df() first."]]))
  /\ (gdf self = None ->
      plot_popups self =
      (Ok tt, self,
       [Printed [PStr "GeoDataFrame is not set. Call set_gdf() first."]])).
Proof.
  split; intros H.
  - unfold set_gdf. rewrite H. reflexivity.
  - unfold plot_popups. rewrite H. reflexivity.
Qed.

(** *** set_gdf *)

Lemma GeoDataFrame_of_points (d : list MRow) :
  rows (GeoDataFrame_of d
          (points_from_xy (List.map longitude d) (List.map latitude d)))
  = List.map (fun r : MRow =>
                {| attrs := r;
                   geometry := Point.make (longitude r) (latitude r) |}) d.
Proof.
  unfold GeoDataFrame_of, points_from_xy. cbn [rows].
  induction d as [|r d IH]; cbn.
  - reflexivity.
  - rewrite IH. reflexivity.
Qed.
(** C4 (as amended): after [set_gdf] on a loaded table the frame holds
    the rows of the table, each with the point (longitude, latitude) as
    its geometry, and has no coordinate reference system; WGS84
    (EPSG:4326) is assigned by [plot_popups], as its first step and
    whether or not the map can then be built, and [plot_popups] leaves
    the points as they are. *)
Theorem set_gdf_pairs_points_without_crs (self : Mapper) (d : list MRow) :
  df self = Some d ->
  exists g,
    set_gdf self = (Ok tt, set_self_gdf (Some g) self, [Printed [PGeoFrame g]])
    /\ List.map (fun r : GRow => attrs r) (rows g) = d
    /\ List.map (fun r : GRow => geometry r) (rows g)
       = List.map (fun r : MRow => Point.make (longitude r) (latitude r)) d
    /\ crs g = None
    /\ exists g',
         gdf (state_after plot_popups (set_self_gdf (Some g) self)) = Some g'
         /\ crs g' = Some 4326
         /\ List.map (fun r : GRow => geometry r) (rows g')
            = List.map (fun r : GRow => geometry r) (rows g).
Proof.
  intros Hd.
  set (g := GeoDataFrame_of d
              (points_from_xy (List.map longitude d) (List.map latitude d))).
  assert (Hrows : rows g = List.map (fun r : MRow =>
                    {| attrs := r;
                       geometry := Point.make (longitude r) (latitude r) |}) d)
    by apply GeoDataFrame_of_points.
  exists g. unfold set_gdf. rewrite Hd.
  split; [reflexivity|].
  split; [rewrite Hrows, List.map_map; apply List.map_id|].
  split; [rewrite Hrows, List.map_map; reflexivity|].
  split; [reflexivity|].
  exists (prepared g).
  split; [apply gdf_after_plot_popups; reflexivity|].
  split; [apply crs_prepared|].
  rewrite rows_prepared, List.map_map. apply List.map_ext.
  intros r. apply geometry_shown.
Qed.

(** *** get_image *)

Lemma popup_shows_image (needle image : string) (row : MRow) :
  Contains needle image -> Contains needle (popup_html row image).
Proof.
  intros H. unfold popup_html.
  do 20 apply Contains_skip. apply Contains_head. exact H.
Qed.


(** C6: for a photo id with no row in the photos table, [get_image]
    does not raise: it prints one line and returns the placeholder,
    which contains "No image available"; a placeable row with that id
    still gets its marker, whose popup shows the placeholder;
    [plot_popups] on a frame returns normally whatever the photos table
    holds; and when several rows have the id asked for, the first one
    is used. *)
Lemma saved_files_app (a b : list (@event Reading Stamp)) :
  saved_files (a ++ b) = (saved_files a ++ saved_files b)%list.
Proof. unfold saved_files. apply flat_map_app. Qed.

Lemma saved_files_log_for (photos_df : list Photo.t) (rs : list GRow) :
  saved_files (log_for photos_df rs) = [].
Proof.
  unfold log_for. induction rs as [|r rs IH]; cbn [flat_map].
  - reflexivity.
  - rewrite saved_files_app, IH, app_nil_r.
    destruct (placeable r); [|reflexivity].
    unfold image_log. destruct (first_photo _ _); reflexivity.
Qed.

(** The outcome of [plot_popups] on a frame is decided by the centre
    of the frame. *)
Lemma plot_popups_result (self : Mapper) (g : Frame) :
  gdf self = Some g ->
  fst (fst (plot_popups self))
  = if centre_is_nan g
    then Raise (ValueError "Location values cannot contain NaNs.")
    else Ok tt.
Proof.
  intros Hg. destruct (centre_is_nan g) eqn:Hc.
  - rewrite (plot_popups_raises self g Hg Hc). reflexivity.
  - rewrite (plot_popups_eq self g Hg Hc). reflexivity.
Qed.

(** C6: for a photo id with no row in the photos table, [get_image]
    does not raise: it prints one line and returns the placeholder,
    which contains "No image available".  A row with that id and
    without a NaN coordinate is still placed: the loop body does not
    raise at the row and adds to the layer its leak flag selects a
    marker at the row's coordinates whose popup shows the placeholder;
    and the map that [plot_popups] builds and saves when folium accepts
    the mean centre has that marker at the row's position in the layer.
    Whether [plot_popups] returns or raises is decided by the centre of
    the frame, never by the photos table.  When several rows have the
    id asked for, the first one is used. *)
Theorem get_image_missing_photo_placeholder (self : Mapper) (pid : Z) :
  ~ In pid (List.map Photo.photo_id (imgdf self)) ->
  get_image pid self =
  (Ok no_image, self,
   [Printed [PStr ("No matching image found for photo_id == "
                   ++ str_int pid)]])
  /\ Contains "No image available" no_image
  /\ (forall (row : GRow) (nz z : folium.FeatureGroup),
        photo_id (attrs row) = pid ->
        placeable row = true ->
        exists mk,
          place_row row (nz, z) self
          = (Ok (if leak (attrs row)
                 then (folium.add_marker mk nz, z)
                 else (nz, folium.add_marker mk z)),
             self, [missing_line pid])
          /\ folium.location mk
             = [latitude (attrs row); longitude (attrs row)]
          /\ Contains "No image available" (folium.popup mk))
  /\ (forall (g : Frame) (before after : list GRow) (row : GRow),
        gdf self = Some g ->
        rows g = (before ++ row :: after)%list ->
        photo_id (attrs row) = pid ->
        placeable row = true ->
        centre_is_nan g = false ->
        exists self' out m nonzero zeros mk,
          plot_popups self = (Ok tt, self', out)
          /\ map self' = Some m
          /\ saved_files out = [(map_name self, m)]
          /\ In (missing_line pid) out
          /\ layers_of m = [nonzero; zeros]
          /\ folium.location mk
             = [latitude (attrs row); longitude (attrs row)]
          /\ Contains "No image available" (folium.popup mk)
          /\ folium.markers nonzero =
             (markers_for (imgdf self) true (List.map (shown g) before)
              ++ (if leak (attrs row) then [mk] else [])
              ++ markers_for (imgdf self) true (List.map (shown g) after))%list
          /\ folium.markers zeros =
             (markers_for (imgdf self) false (List.map (shown g) before)
              ++ (if leak (attrs row) then [] else [mk])
              ++ markers_for (imgdf self) false
                   (List.map (shown g) after))%list)
  /\ (forall g : Frame,
        gdf self = Some g ->
        fst (fst (plot_popups self))
        = if centre_is_nan g
          then Raise (ValueError "Location values cannot contain NaNs.")
          else Ok tt)
  /\ (forall before p after,
        imgdf self = (before ++ p :: after)%list ->
        ~ In (Photo.photo_id p) (List.map Photo.photo_id before) ->
        get_image (Photo.photo_id p) self =
        (Ok (img_prefix ++ Base64.b64encode (Photo.photo p) ++ img_suffix),
         self, [])).
Proof.
  intros Hmiss.
  pose proof (first_photo_none _ _ Hmiss) as Hnone.
  split.
  { rewrite get_image_eq. unfold image_of, image_log. rewrite Hnone.
    reflexivity. }
  split; [exact no_image_text|].
  split.
  { intros row nz z Hid Hp. exists (marker_of (imgdf self) row).
    rewrite place_row_eq, Hp. unfold image_log. rewrite Hid, Hnone.
    split; [reflexivity|]. split; [reflexivity|].
    unfold marker_of, image_of. cbn [folium.popup]. rewrite Hid, Hnone.
    apply popup_shows_image, no_image_text. }
  split.
  { intros g before after row Hg Hrows Hid Hp Hc.
    eexists _, _, (map_of (imgdf self) (prepared g)).
    eexists _, _, (marker_of (imgdf self) (shown g row)).
    rewrite (plot_popups_eq self g Hg Hc).
    split; [reflexivity|]. split; [reflexivity|].
    split.
    { rewrite saved_files_app, saved_files_log_for. reflexivity. }
    split.
    { apply in_or_app. left. rewrite Hrows, log_for_split, Hp.
      apply in_or_app. right. apply in_or_app. left.
      unfold image_log. rewrite Hid, Hnone. left. reflexivity. }
    split; [reflexivity|].
    split; [apply location_shown|].
    split.
    { unfold marker_of, image_of. cbn [folium.popup].
      rewrite photo_id_shown, Hid, Hnone.
      apply popup_shows_image, no_image_text. }
    cbn [map_of folium.children folium.markers].
    rewrite (rows_prepared_split g before after row Hrows).
    rewrite !markers_for_split, placeable_shown, Hp, leak_shown.
    split; destruct (leak (attrs row)); reflexivity. }
  split; [exact (plot_popups_result self)|].
  intros before p after Himg Hfirst.
  rewrite get_image_eq. unfold image_of, image_log.
  rewrite Himg, (first_photo_split before after p Hfirst).
  reflexivity.
Qed.

(** *** The viewport *)

Lemma filter_all {A : Type} (f : A -> bool) (l : list A) :
  forallb f l = true -> filter f l = l.
Proof.
  induction l as [|a l IH]; cbn; intros H.
  - reflexivity.
  - apply andb_true_iff in H. destruct H as [Ha Hl].
    rewrite Ha, IH by exact Hl. reflexivity.
Qed.

Lemma mean_not_nan (xs : list float) :
  is_nan (Series.mean xs) = false -> Series.dropna xs <> [].
Proof.
  intros H E. unfold Series.mean in H. rewrite E in H. discriminate H.
Qed.

Lemma centre_columns (g : Frame) :
  centre_is_nan g = false ->
  Series.dropna (geometry_y g) <> [] /\ Series.dropna (geometry_x g) <> [].
Proof.
  unfold centre_is_nan, center_of. cbn [existsb]. intros H.
  apply orb_false_iff in H. destruct H as [Hy H].
  apply orb_false_iff in H. destruct H as [Hx _].
  split; apply mean_not_nan; assumption.
Qed.

(** C8 (as amended): when folium accepts the mean centre of the frame,
    the bounds passed to [fit_bounds] are
    [[min_lat, min_lon], [max_lat, max_lon]], each taken over its own
    geometry column of all rows, skipping the NaN values of that column
    only: each is a value of its column, not NaN, and below (above)
    every value of the column that is not NaN.  They are the bounds of
    the placed points when every row is placed.  [fit_bounds] is
    applied to the map after it is created with the mean centre and
    zoom 13, so the fitted bounds, not that first guess, are the
    viewport of the map. *)
Theorem fit_bounds_over_geometry_columns (self : Mapper) (g : Frame) :
  gdf self = Some g ->
  centre_is_nan g = false ->
  exists self' out m rest,
    plot_popups self = (Ok tt, self', out)
    /\ map self' = Some m
    /\ folium.center m
       = [Series.mean (geometry_y g); Series.mean (geometry_x g)]
    /\ folium.zoom_start m = 13
    /\ folium.children m =
       folium.FitBounds
         [[Series.min (geometry_y g); Series.min (geometry_x g)];
          [Series.max (geometry_y g); Series.max (geometry_x g)]] :: rest
    /\ fitted m = [bounds_of g]
    /\ folium.viewport m = folium.Fitted (bounds_of g)
    /\ is_min_of (Series.min (geometry_y g)) (geometry_y g)
    /\ is_max_of (Series.max (geometry_y g)) (geometry_y g)
    /\ is_min_of (Series.min (geometry_x g)) (geometry_x g)
    /\ is_max_of (Series.max (geometry_x g)) (geometry_x g)
    /\ (forallb placeable (rows g) = true -> fitted m = [placed_bounds g]).
Proof.
  intros Hg Hc.
  destruct (plot_popups_map self g Hg Hc)
    as (self' & out & Hrun & Hmap & _).
  destruct (centre_columns g Hc) as [Hy Hx].
  exists self', out, (map_of (imgdf self) (prepared g)). eexists.
  split; [exact Hrun|]. split; [exact Hmap|].
  unfold fitted, folium.viewport.
  cbn [map_of folium.center folium.zoom_start folium.children flat_map
       fold_left app].
  rewrite center_of_prepared, bounds_of_prepared.
  split; [reflexivity|]. split; [reflexivity|].
  split; [reflexivity|]. split; [reflexivity|].
  split; [reflexivity|].
  split; [apply FloatOrderFacts.Series_min_is_min, Hy|].
  split; [apply FloatOrderFacts.Series_max_is_max, Hy|].
  split; [apply FloatOrderFacts.Series_min_is_min, Hx|].
  split; [apply FloatOrderFacts.Series_max_is_max, Hx|].
  intros Hall. unfold placed_bounds, bounds_of, geometry_x, geometry_y.
  cbn [rows]. rewrite (filter_all _ _ Hall). reflexivity.
Qed.

(** *** main *)

(** C9: [main] calls [leakMapper] with two arguments, the database path
    and the table name, for the three parameters [path_to_db],
    [table_name] and [city]: the call raises TypeError for the missing
    [city] whatever the database holds, before [__init__] reads anything
    and before any stage prints anything. *)
Theorem main_fails_at_construction (current_dir : string) :
  List.length init_params = 3%nat
  /\ main sqlite current_dir =
     (Raise (TypeError
               "__init__() missing 1 required positional argument: 'city'"),
      []).
Proof. split; reflexivity. Qed.

(** *** The photos table of the object *)

Lemma keeps_bind {A B : Type} (m : M A) (k : A -> M B) :
  keeps_imgdf m -> (forall a, keeps_imgdf (k a)) ->
  keeps_imgdf (@bind Reading Stamp A B m k).
Proof.
  intros Hm Hk self. unfold bind.
  specialize (Hm self). destruct (m self) as [[[a|e] s1] o1]; cbn in Hm.
  - specialize (Hk a s1). destruct (k a s1) as [[r s2] o2]. cbn in *.
    congruence.
  - exact Hm.
Qed.

Lemma keeps_connect : keeps_imgdf (@connect Reading Stamp).
Proof. intros self. unfold connect. destruct (conn self); reflexivity. Qed.

Lemma keeps_close_connection : keeps_imgdf (@close_connection Reading Stamp).
Proof.
  intros self. unfold close_connection. destruct (conn self); reflexivity.
Qed.

Lemma keeps_set_df : keeps_imgdf (set_df sqlite).
Proof.
  intros self. unfold set_df.
  destruct (read_sql_table sqlite (table self) (engine self)); reflexivity.
Qed.

Lemma keeps_set_gdf : keeps_imgdf (@set_gdf Reading Stamp).
Proof. intros self. unfold set_gdf. destruct (df self); reflexivity. Qed.

Lemma keeps_get_image (pid : Z) : keeps_imgdf (@get_image Reading Stamp pid).
Proof. intros self. rewrite get_image_eq. reflexivity. Qed.

Lemma keeps_plot_popups :
  keeps_imgdf (plot_popups (Reading := Reading) (Stamp := Stamp)).
Proof.
  intros self. destruct (gdf self) as [g|] eqn:Hg.
  - destruct (centre_is_nan g) eqn:Hc.
    + rewrite (plot_popups_raises self g Hg Hc). reflexivity.
    + rewrite (plot_popups_eq self g Hg Hc). reflexivity.
  - unfold plot_popups. rewrite Hg. reflexivity.
Qed.

Lemma keeps_execute :
  keeps_imgdf (execute (Reading := Reading) (Stamp := Stamp) sqlite).
Proof.
  unfold execute.
  apply keeps_bind; [apply keeps_set_df|intros _].
  apply keeps_bind; [apply keeps_set_gdf|intros _].
  apply keeps_plot_popups.
Qed.

Lemma keeps_forget {A : Type} (m : M A) :
  keeps_imgdf m -> keeps_imgdf (@forget Reading Stamp A m).
Proof.
  intros Hm self. unfold forget. specialize (Hm self).
  destruct (m self) as [[[a|e] s1] o1]; exact Hm.
Qed.

Lemma keeps_run_call (c : call) : keeps_imgdf (run_call sqlite c).
Proof.
  destruct c; cbn [run_call].
  - apply keeps_connect.
  - apply keeps_close_connection.
  - apply keeps_set_df.
  - apply keeps_set_gdf.
  - apply keeps_forget, keeps_get_image.
  - apply keeps_plot_popups.
  - apply keeps_execute.
Qed.

Lemma after_calls_imgdf (cs : list call) (self : Mapper) :
  imgdf (after_calls sqlite cs self) = imgdf self.
Proof.
  revert self. induction cs as [|c cs IH]; intros self; cbn.
  - reflexivity.
  - rewrite IH. apply keeps_run_call.
Qed.

(** C10: [__init__] reads the whole [photos] table itself, outside any
    [try]: when the read raises, the constructor raises the same
    exception, prints nothing and yields no object; when it succeeds,
    the object holds the table in [imgdf], and [imgdf] is the same
    after any sequence of method calls. *)
Theorem init_reads_photos_eagerly (path tbl town : string) :
  (forall e,
     photos (sqlite ("sqlite:///" ++ path)) = Raise e ->
     init sqlite path tbl town = (Raise e, []))
  /\ (forall photos_df,
        photos (sqlite ("sqlite:///" ++ path)) = Ok photos_df ->
        exists self,
          init sqlite path tbl town = (Ok self, [])
          /\ imgdf self = photos_df
          /\ forall cs, imgdf (after_calls sqlite cs self) = photos_df).
Proof.
  unfold init, read_sql_photos, create_engine. split.
  - intros e He. rewrite He. reflexivity.
  - intros photos_df Hp. rewrite Hp. eexists. split; [reflexivity|].
    split; [reflexivity|].
    intros cs. rewrite after_calls_imgdf. reflexivity.
Qed.

(** *** execute in closed form *)

Lemma geometry_of_table (d : list MRow) :
  geometry_y (GeoDataFrame_of d
                (points_from_xy (List.map longitude d)
                   (List.map latitude d)))
  = List.map latitude d
  /\ geometry_x (GeoDataFrame_of d
                   (points_from_xy (List.map longitude d)
                      (List.map latitude d)))
     = List.map longitude d.
Proof.
  unfold geometry_x, geometry_y. rewrite GeoDataFrame_of_points.
  rewrite !List.map_map. split; reflexivity.
Qed.

Lemma execute_eq (self : Mapper) (d : list MRow) :
  read_sql_table sqlite (table self) (engine self) = Ok d ->
  let g := GeoDataFrame_of d
             (points_from_xy (List.map longitude d) (List.map latitude d)) in
  centre_is_nan g = false ->
  execute sqlite self =
  (Ok tt,
   set_self_map (Some (map_of (imgdf self) (prepared g)))
     (set_self_gdf (Some (prepared g)) (set_self_df (Some d) self)),
   ([Printed [PFrame d]; Printed [PGeoFrame g]]
    ++ log_for (imgdf self) (rows g)
    ++ [Saved (map_name self) (map_of (imgdf self) (prepared g));
        Printed [PStr ("Map has been saved to " ++ map_name self)]])%list).
Proof.
  intros H g Hc. unfold execute. unfold bind at 1. unfold set_df at 1.
  rewrite H. unfold bind at 1. unfold set_gdf at 1. cbn [df set_self_df].
  fold g.
  rewrite (plot_popups_eq
             (set_self_gdf (Some g) (set_self_df (Some d) self)) g eq_refl Hc).
  reflexivity.
Qed.

(** *** The two-row scenario *)

(** C3 (as amended): a table of the two rows (lon -70.0, lat 43.0, leak
    true, photo 1, in the photos table) and (lon -70.5, lat 43.5, leak
    false, photo 99, not in the photos table) is built into a map with
    one marker in each layer; the popup of the marker in "Zeros" shows
    the placeholder; the centre is [43.25, -70.25], latitude first as in
    the bounds, and the fitted bounds are [[43.0, -70.5], [43.5, -70.0]]. *)
Theorem two_row_scenario (path tbl town : string) (photos_df : list Photo.t)
  (ppm1 ppm2 : Reading) (t1 t2 : timestamp_cell) (kind1 kind2 : string) :
  let r1 := {| photo_id := 1; longitude := (-70.0)%float;
               latitude := 43.0%float; methane_level := ppm1;
               timestamp := t1; type_of_infrastructure := kind1;
               leak := true |} in
  let r2 := {| photo_id := 99; longitude := (-70.5)%float;
               latitude := 43.5%float; methane_level := ppm2;
               timestamp := t2; type_of_infrastructure := kind2;
               leak := false |} in
  photos (sqlite ("sqlite:///" ++ path)) = Ok photos_df ->
  tables (sqlite ("sqlite:///" ++ path)) tbl = Ok [r1; r2] ->
  In 1 (List.map Photo.photo_id photos_df) ->
  ~ In 99 (List.map Photo.photo_id photos_df) ->
  exists mapper self' out m mk1 mk2,
    new sqlite [path; tbl; town] = (Ok mapper, [])
    /\ execute sqlite mapper = (Ok tt, self', out)
    /\ map self' = Some m
    /\ layers_of m =
       [{| folium.name := "Non Zero"; folium.markers := [mk1] |};
        {| folium.name := "Zeros"; folium.markers := [mk2] |}]
    /\ folium.location mk1 = [43.0%float; (-70.0)%float]
    /\ folium.location mk2 = [43.5%float; (-70.5)%float]
    /\ (exists p, first_photo photos_df 1 = Some p
                   /\ Contains (img_prefix ++ Base64.b64encode (Photo.photo p)
                                ++ img_suffix) (folium.popup mk1))
    /\ Contains "No image available" (folium.popup mk2)
    /\ folium.center m = [43.25%float; (-70.25)%float]
    /\ fitted m = [[[43.0%float; (-70.5)%float];
                    [43.5%float; (-70.0)%float]]].
Proof.
  intros r1 r2 Hphotos Htable H1 H99.
  pose proof (first_photo_none photos_df 99 H99) as Hnone.
  destruct (first_photo_some photos_df 1 H1) as (p & Hp & _).
  assert (Hnew : new sqlite [path; tbl; town] = init sqlite path tbl town)
    by reflexivity.
  rewrite Hnew. unfold init, read_sql_photos, create_engine.
  rewrite Hphotos.
  set (mapper := {| conn := None; path_to_db := path; table := tbl;
                    city := town; engine := "sqlite:///" ++ path;
                    df := None; gdf := None; map := None;
                    map_name := town ++ "_maine_map.html";
                    imgdf := photos_df |}).
  set (g := GeoDataFrame_of [r1; r2]
              (points_from_xy (List.map longitude [r1; r2])
                 (List.map latitude [r1; r2]))).
  set (g1 := {| attrs := r1;
                geometry := Point.make (longitude r1) (latitude r1) |}).
  set (g2 := {| attrs := r2;
                geometry := Point.make (longitude r2) (latitude r2) |}).
  exists mapper. eexists _, _.
  exists (map_of photos_df (prepared g)),
    (marker_of photos_df (shown g g1)), (marker_of photos_df (shown g g2)).
  split; [reflexivity|].
  split; [exact (execute_eq mapper [r1; r2] Htable eq_refl)|].
  split; [reflexivity|].
  split.
  { unfold layers_of. cbn [map_of folium.children flat_map app].
    rewrite !markers_for_prepared. reflexivity. }
  split; [apply location_shown|]. split; [apply location_shown|].
  split.
  { exists p. split; [exact Hp|].
    unfold marker_of. cbn [folium.popup]. apply popup_shows_image.
    rewrite photo_id_shown. unfold image_of.
    change (photo_id (attrs g1)) with 1. rewrite Hp. apply Contains_refl. }
  split.
  { unfold marker_of. cbn [folium.popup]. apply popup_shows_image.
    rewrite photo_id_shown. unfold image_of.
    change (photo_id (attrs g2)) with 99. rewrite Hnone.
    exact no_image_text. }
  split.
  - cbn [map_of folium.center]. rewrite center_of_prepared. reflexivity.
  - unfold fitted. cbn [map_of folium.children flat_map app].
    rewrite bounds_of_prepared. reflexivity.
Qed.


(** *** connect, close_connection *)

(** X1: [connect] on a connected object and [close_connection] on a
    closed one do nothing; after [connect] the object is connected,
    after [close_connection] it is not; opening a closed object and
    closing it again gives the object back. *)
Theorem connection_open_close (self : Mapper) :
  connect (state_after connect self) = (Ok tt, state_after connect self, [])
  /\ close_connection (state_after close_connection self)
     = (Ok tt, state_after close_connection self, [])
  /\ conn (state_after connect self) <> None
  /\ conn (state_after close_connection self) = None
  /\ (conn self = None ->
      close_connection (state_after connect self) = (Ok tt, self, [])).
Proof.
  unfold state_after, connect, close_connection.
  destruct self as [c p t ci e d g m mn im]; cbn.
  destruct c as [c|]; cbn; repeat split; discriminate.
Qed.

(** *** execute *)

(** X2: when reading the measurement table raises, [execute] prints the
    one error line of [set_df], raises the same exception and leaves
    the object as it was: no later stage runs and no file is written. *)
Theorem execute_stops_when_read_fails (self : Mapper) (e : exn) :
  read_sql_table sqlite (table self) (engine self) = Raise e ->
  execute sqlite self =
  (Raise e, self,
   [Printed [PStr "Error retrieving data from databse."; PExn e]])
  /\ saved_files (snd (execute sqlite self)) = [].
Proof.
  intros H.
  assert (E : execute sqlite self =
              (Raise e, self,
               [Printed [PStr "Error retrieving data from databse."; PExn e]])).
  { unfold execute, bind, set_df. rewrite H. reflexivity. }
  split; [exact E|]. rewrite E. reflexivity.
Qed.

(** X3: when the photos table and the measurement table can be read and
    each coordinate column of the table has a mean that is not NaN,
    constructing the object and running [execute] returns normally,
    stores the table in [df] and the map in [map], and writes exactly
    one file, named after the city, holding that map; the frame prints
    come first and the completion message last. *)
Theorem construct_and_execute_saves_one_file (path tbl town : string)
  (photos_df : list Photo.t) (d : list MRow) :
  photos (sqlite ("sqlite:///" ++ path)) = Ok photos_df ->
  tables (sqlite ("sqlite:///" ++ path)) tbl = Ok d ->
  is_nan (Series.mean (List.map latitude d)) = false ->
  is_nan (Series.mean (List.map longitude d)) = false ->
  exists mapper self' out m g middle,
    new sqlite [path; tbl; town] = (Ok mapper, [])
    /\ execute sqlite mapper = (Ok tt, self', out)
    /\ df self' = Some d
    /\ map self' = Some m
    /\ saved_files out = [(town ++ "_maine_map.html", m)]
    /\ out = ([Printed [PFrame d]; Printed [PGeoFrame g]] ++ middle
              ++ [Saved (town ++ "_maine_map.html") m;
                  Printed [PStr ("Map has been saved to "
                                 ++ town ++ "_maine_map.html")]])%list
    /\ saved_files middle = [].
Proof.
  intros Hp Ht Hlat Hlon.
  assert (Hnew : new sqlite [path; tbl; town] = init sqlite path tbl town)
    by reflexivity.
  rewrite Hnew. unfold init, read_sql_photos, create_engine. rewrite Hp.
  assert (Hc : centre_is_nan
                 (GeoDataFrame_of d
                    (points_from_xy (List.map longitude d)
                       (List.map latitude d))) = false).
  { unfold centre_is_nan, center_of.
    destruct (geometry_of_table d) as [Ey Ex]. rewrite Ey, Ex.
    cbn [existsb]. rewrite Hlat, Hlon. reflexivity. }
  eexists _, _, _, _, _, _. split; [reflexivity|].
  split; [apply execute_eq; [exact Ht|exact Hc]|].
  split; [reflexivity|]. split; [reflexivity|].
  cbn [map_name imgdf].
  split.
  { rewrite !saved_files_app, saved_files_log_for. reflexivity. }
  split; [reflexivity|]. apply saved_files_log_for.
Qed.

(** *** What no method changes *)

Lemma keeps_bind_any {A B C : Type} (f : Mapper -> C) (m : M A)
  (k : A -> M B) :
  keeps f m -> (forall a, keeps f (k a)) -> keeps f (bind m k).
Proof.
  intros Hm Hk self. unfold state_after, bind.
  specialize (Hm self). unfold state_after in Hm.
  destruct (m self) as [[[a|e] s1] o1]; cbn in Hm.
  - specialize (Hk a s1). unfold state_after in Hk.
    destruct (k a s1) as [[r s2] o2]. cbn in *. congruence.
  - exact Hm.
Qed.

Lemma preserves_bind {A B : Type} (P : Mapper -> Prop) (m : M A)
  (k : A -> M B) :
  preserves P m -> (forall a, preserves P (k a)) -> preserves P (bind m k).
Proof.
  intros Hm Hk self HP. unfold state_after, bind.
  specialize (Hm self HP). unfold state_after in Hm.
  destruct (m self) as [[[a|e] s1] o1]; cbn in Hm.
  - specialize (Hk a s1 Hm). unfold state_after in Hk.
    destruct (k a s1) as [[r s2] o2]. exact Hk.
  - exact Hm.
Qed.

Lemma keeps_settings_set_df : keeps settings (set_df sqlite).
Proof.
  intros self. unfold state_after, set_df.
  destruct (read_sql_table sqlite (table self) (engine self)); reflexivity.
Qed.

Lemma keeps_settings_set_gdf :
  keeps settings (set_gdf (Reading := Reading) (Stamp := Stamp)).
Proof.
  intros self. unfold state_after, set_gdf. destruct (df self); reflexivity.
Qed.

Lemma keeps_settings_plot_popups :
  keeps settings (plot_popups (Reading := Reading) (Stamp := Stamp)).
Proof.
  intros self. unfold state_after. destruct (gdf self) as [g|] eqn:Hg.
  - destruct (centre_is_nan g) eqn:Hc.
    + rewrite (plot_popups_raises self g Hg Hc). reflexivity.
    + rewrite (plot_popups_eq self g Hg Hc). reflexivity.
  - unfold plot_popups. rewrite Hg. reflexivity.
Qed.

Lemma keeps_settings_execute :
  keeps settings (execute (Reading := Reading) (Stamp := Stamp) sqlite).
Proof.
  unfold execute.
  apply keeps_bind_any; [apply keeps_settings_set_df|intros _].
  apply keeps_bind_any; [apply keeps_settings_set_gdf|intros _].
  apply keeps_settings_plot_popups.
Qed.

Lemma keeps_configuration_run_call (c : call) :
  keeps configuration (run_call sqlite c).
Proof.
  assert (weaken : forall m : @M Reading Stamp unit, keeps settings m ->
                                      keeps configuration m).
  { intros m H self. specialize (H self). unfold settings in H.
    congruence. }
  destruct c; cbn [run_call].
  - intros self. unfold state_after, connect.
    destruct (conn self); reflexivity.
  - intros self. unfold state_after, close_connection.
    destruct (conn self); reflexivity.
  - apply weaken, keeps_settings_set_df.
  - apply weaken, keeps_settings_set_gdf.
  - intros self. unfold state_after, forget. rewrite get_image_eq.
    reflexivity.
  - apply weaken, keeps_settings_plot_popups.
  - apply weaken, keeps_settings_execute.
Qed.

(** X4: no sequence of method calls changes the database path, the
    table name, the city, the engine or the name of the output file;
    and [execute] leaves the connection attribute as it finds it. *)
Theorem calls_keep_configuration (cs : list call) (self : Mapper) :
  configuration (after_calls sqlite cs self) = configuration self
  /\ conn (state_after (execute sqlite) self) = conn self.
Proof.
  split.
  - revert self. induction cs as [|c cs IH]; intros self; cbn.
    + reflexivity.
    + rewrite IH. apply (keeps_configuration_run_call c self).
  - pose proof (keeps_settings_execute self) as H. unfold settings in H.
    congruence.
Qed.

(** *** The geometry column *)

Lemma geometry_matches_of_table (d : list MRow) :
  geometry_matches
    (GeoDataFrame_of d
       (points_from_xy (List.map longitude d) (List.map latitude d))).
Proof.
  unfold geometry_matches. rewrite GeoDataFrame_of_points.
  apply Forall_map, Forall_forall. intros r _. reflexivity.
Qed.

Lemma geometry_matches_prepared (g : Frame) :
  geometry_matches g -> geometry_matches (prepared g).
Proof.
  unfold geometry_matches. intros H. rewrite rows_prepared.
  apply Forall_map. revert H. apply Forall_impl. intros r Hr.
  pose proof (fixed_columns_shown g r) as E. unfold fixed_columns in E.
  congruence.
Qed.

Lemma preserves_consistent_set_gdf :
  preserves gdf_consistent (set_gdf (Reading := Reading) (Stamp := Stamp)).
Proof.
  intros self H. unfold state_after, set_gdf, gdf_consistent.
  destruct (df self) as [d|]; cbn.
  - apply geometry_matches_of_table.
  - exact H.
Qed.

Lemma preserves_consistent_plot_popups :
  preserves gdf_consistent (plot_popups (Reading := Reading) (Stamp := Stamp)).
Proof.
  intros self H. unfold gdf_consistent in *.
  destruct (gdf self) as [g|] eqn:Hg.
  - rewrite (gdf_after_plot_popups self g Hg).
    apply geometry_matches_prepared, H.
  - unfold state_after, plot_popups. rewrite Hg. cbn. rewrite Hg. exact I.
Qed.

Lemma preserves_consistent_set_df :
  preserves gdf_consistent (set_df sqlite).
Proof.
  intros self H. unfold state_after, set_df.
  destruct (read_sql_table sqlite (table self) (engine self)); exact H.
Qed.

Lemma preserves_consistent_run_call (c : call) :
  preserves gdf_consistent (run_call sqlite c).
Proof.
  destruct c; cbn [run_call].
  - intros self H. unfold state_after, connect.
    destruct (conn self); exact H.
  - intros self H. unfold state_after, close_connection.
    destruct (conn self); exact H.
  - apply preserves_consistent_set_df.
  - apply preserves_consistent_set_gdf.
  - intros self H. unfold state_after, forget. rewrite get_image_eq.
    exact H.
  - apply preserves_consistent_plot_popups.
  - unfold execute.
    apply preserves_bind; [apply preserves_consistent_set_df|intros _].
    apply preserves_bind; [apply preserves_consistent_set_gdf|intros _].
    apply preserves_consistent_plot_popups.
Qed.

(** X9: on an object whose frame, if any, has for every row the point
    of that row's longitude and latitude as geometry, every sequence of
    method calls leaves a frame of that kind: [set_gdf] builds one and
    [plot_popups] changes neither the coordinates nor the points. *)
Theorem calls_keep_geometry_consistent (cs : list call) (self : Mapper) :
  gdf_consistent self -> gdf_consistent (after_calls sqlite cs self).
Proof.
  revert self. induction cs as [|c cs IH]; intros self H; cbn.
  - exact H.
  - apply IH. apply (preserves_consistent_run_call c self H).
Qed.

(** *** The two layers *)



(** *** What plot_popups prints *)

Lemma has_photo_first (photos_df : list Photo.t) (pid : Z) :
  has_photo photos_df pid =
  match first_photo photos_df pid with Some _ => true | None => false end.
Proof.
  unfold has_photo, first_photo.
  induction photos_df as [|p l IH]; cbn.
  - reflexivity.
  - destruct (Photo.photo_id p =? pid)%Z; cbn; [reflexivity|exact IH].
Qed.

Lemma log_for_missing (photos_df : list Photo.t) (rs : list GRow) :
  log_for photos_df rs =
  List.map (fun r : GRow => missing_line (photo_id (attrs r)))
    (filter (fun r : GRow =>
               placeable r
               && negb (has_photo photos_df (photo_id (attrs r)))) rs).
Proof.
  unfold log_for. induction rs as [|r rs IH]; cbn [flat_map filter].
  - reflexivity.
  - rewrite IH, has_photo_first. unfold image_log.
    destruct (placeable r); cbn [andb]; [|reflexivity].
    destruct (first_photo photos_df (photo_id (attrs r)));
      cbn [negb]; reflexivity.
Qed.

(** X6: on a frame whose mean centre folium accepts, [plot_popups]
    prints one "No matching image" line for every row that is placed
    and whose photo id is not in the photos table, in row order, then
    writes the file and prints the completion message; it prints
    nothing else. *)
Theorem plot_popups_output (self : Mapper) (g : Frame) :
  gdf self = Some g ->
  centre_is_nan g = false ->
  exists self' out m,
    plot_popups self = (Ok tt, self', out)
    /\ map self' = Some m
    /\ out =
       (List.map (fun r : GRow => missing_line (photo_id (attrs r)))
          (filter (fun r : GRow =>
                     placeable r
                     && negb (has_photo (imgdf self) (photo_id (attrs r))))
                  (rows g))
        ++ [Saved (map_name self) m;
            Printed [PStr ("Map has been saved to " ++ map_name self)]])%list.
Proof.
  intros Hg Hc. eexists _, _, _. rewrite (plot_popups_eq self g Hg Hc).
  split; [reflexivity|]. split; [reflexivity|].
  rewrite log_for_missing. reflexivity.
Qed.

(** *** Running a stage again *)

(** X7: [set_gdf] and [plot_popups] can be run again: the second run of
    [set_gdf] returns normally, and the second run of either returns,
    prints and writes what the first one did, an exception of
    [folium.Map] included, and leaves the object as the first run left
    it. *)
Theorem stages_can_be_run_again (self : Mapper) :
  set_gdf (state_after set_gdf self)
  = (Ok tt, state_after set_gdf self, snd (set_gdf self))
  /\ plot_popups (state_after plot_popups self)
     = (fst (fst (plot_popups self)), state_after plot_popups self,
        snd (plot_popups self)).
Proof.
  split.
  - unfold state_after, set_gdf. destruct (df self) as [d|] eqn:Hd; cbn;
      rewrite Hd; reflexivity.
  - unfold state_after. destruct (gdf self) as [g|] eqn:Hg.
    + destruct (centre_is_nan g) eqn:Hc.
      * rewrite (plot_popups_raises self g Hg Hc). cbn [fst snd].
        rewrite (plot_popups_raises (set_self_gdf (Some (prepared g)) self)
                   (prepared g) eq_refl)
          by (rewrite centre_is_nan_prepared; exact Hc).
        rewrite prepared_twice. reflexivity.
      * rewrite (plot_popups_eq self g Hg Hc). cbn [fst snd].
        set (s1 := set_self_map (Some (map_of (imgdf self) (prepared g)))
                     (set_self_gdf (Some (prepared g)) self)).
        rewrite (plot_popups_eq s1 (prepared g) eq_refl)
          by (rewrite centre_is_nan_prepared; exact Hc).
        subst s1. cbn [imgdf map_name set_self_map set_self_gdf].
        rewrite prepared_twice, log_for_prepared. reflexivity.
    + unfold plot_popups. rewrite Hg. cbn. rewrite Hg. reflexivity.
Qed.

(** *** What plot_popups does to the frame *)

Lemma stamps_datetime (rs : list GRow) :
  forallb (fun r : GRow => is_datetime (timestamp (attrs r))) rs = true ->
  List.map (fun r : GRow => timestamp (attrs r)) rs
  = List.map Datetime (stamps rs).
Proof.
  unfold stamps. induction rs as [|r rs IH]; cbn [forallb List.map flat_map].
  - reflexivity.
  - intros H. apply andb_true_iff in H. destruct H as [Hr Hrs].
    rewrite (IH Hrs). destruct (timestamp (attrs r)); [|discriminate].
    reflexivity.
Qed.

(** X8: whatever [plot_popups] returns on a frame, it leaves the frame
    with EPSG:4326 as CRS and with its rows in number and order, and it
    changes none of their columns but [timestamp]: a datetime column
    becomes the column of the texts [astype(str)] gives its values, and
    any other column is left alone. *)
Theorem plot_popups_converts_only_timestamps (self : Mapper) (g : Frame) :
  gdf self = Some g ->
  exists g',
    gdf (state_after plot_popups self) = Some g'
    /\ crs g' = Some 4326
    /\ List.map fixed_columns (rows g') = List.map fixed_columns (rows g)
    /\ (is_datetime64_any_dtype g = true ->
        List.map (fun r : GRow => timestamp (attrs r)) (rows g)
        = List.map Datetime (stamps (rows g))
        /\ List.map (fun r : GRow => timestamp (attrs r)) (rows g')
           = List.map (fun t => Text (astype_str (stamps (rows g)) t))
               (stamps (rows g)))
    /\ (is_datetime64_any_dtype g = false -> rows g' = rows g).
Proof.
  intros Hg. exists (prepared g).
  split; [apply gdf_after_plot_popups, Hg|].
  split; [apply crs_prepared|].
  rewrite rows_prepared, List.map_map.
  split; [apply List.map_ext; intros r; apply fixed_columns_shown|].
  unfold shown. split; intros E; rewrite E.
  - pose proof (stamps_datetime (rows g) E) as Hcol.
    split; [exact Hcol|].
    rewrite List.map_map.
    transitivity (List.map (fun c : @timestamp_cell Stamp => match c with
                                     | Datetime t =>
                                         @Text Stamp
                                           (astype_str (stamps (rows g)) t)
                                     | Text s => Text s
                                     end)
                    (List.map (fun r : GRow => timestamp (attrs r)) (rows g))).
    + rewrite List.map_map. reflexivity.
    + rewrite Hcol, List.map_map. reflexivity.
  - apply List.map_id.
Qed.

(** *** Markers and the fitted bounds *)

Lemma marker_row (photos_df : list Photo.t) (g : Frame) (mk : folium.Marker) :
  In mk (flat_map folium.markers (layers_of (map_of photos_df (prepared g)))) ->
  exists r : GRow,
    In r (rows g) /\ placeable r = true
    /\ mk = marker_of photos_df (shown g r).
Proof.
  unfold layers_of. cbn [map_of folium.children flat_map folium.markers app].
  rewrite app_nil_r, !markers_for_prepared. intros H. apply in_app_or in H.
  destruct H as [H|H]; apply in_map_iff in H;
    destruct H as (r & <- & Hr); apply filter_In in Hr;
    destruct Hr as [Hr Hb]; apply andb_true_iff in Hb; exists r; tauto.
Qed.

Lemma column_value_bounded (xs : list float) (v : float) :
  In v xs -> is_nan v = false ->
  (Series.min xs <=? v)%float = true /\ (v <=? Series.max xs)%float = true.
Proof.
  intros Hin Hv.
  assert (Hne : Series.dropna xs <> []).
  { intros E. assert (K : In v (Series.dropna xs))
      by (apply FloatOrderFacts.dropna_spec; auto).
    rewrite E in K. exact K. }
  destruct (FloatOrderFacts.Series_min_is_min xs Hne) as (_ & _ & Hmin).
  destruct (FloatOrderFacts.Series_max_is_max xs Hne) as (_ & _ & Hmax).
  auto.
Qed.

(** X10: when the geometry of every row is the point of its longitude
    and latitude and folium accepts the mean centre, every marker
    [plot_popups] places lies inside the bounds it passes to
    [fit_bounds]: the marker's latitude is between min_lat and max_lat
    and its longitude between min_lon and max_lon. *)
Theorem markers_lie_inside_fitted_bounds (self : Mapper) (g : Frame) :
  gdf self = Some g ->
  geometry_matches g ->
  centre_is_nan g = false ->
  exists self' out m min_lat min_lon max_lat max_lon,
    plot_popups self = (Ok tt, self', out)
    /\ map self' = Some m
    /\ fitted m = [[[min_lat; min_lon]; [max_lat; max_lon]]]
    /\ forall mk,
         In mk (flat_map folium.markers (layers_of m)) ->
         exists lat lon,
           folium.location mk = [lat; lon]
           /\ (min_lat <=? lat)%float = true
           /\ (lat <=? max_lat)%float = true
           /\ (min_lon <=? lon)%float = true
           /\ (lon <=? max_lon)%float = true.
Proof.
  intros Hg Hgeo Hc.
  destruct (plot_popups_map self g Hg Hc) as (self' & out & Hrun & Hmap & _).
  exists self', out, (map_of (imgdf self) (prepared g)).
  exists (Series.min (geometry_y g)), (Series.min (geometry_x g)),
    (Series.max (geometry_y g)), (Series.max (geometry_x g)).
  split; [exact Hrun|]. split; [exact Hmap|].
  split.
  { unfold fitted. cbn [map_of folium.children flat_map app].
    rewrite bounds_of_prepared. reflexivity. }
  intros mk Hmk.
  destruct (marker_row _ _ _ Hmk) as (r & Hr & Hp & ->).
  apply placeable_iff in Hp. destruct Hp as [Hlat Hlon].
  unfold geometry_matches in Hgeo. rewrite Forall_forall in Hgeo.
  pose proof (Hgeo r Hr) as Hpoint.
  exists (latitude (attrs r)), (longitude (attrs r)).
  split; [apply location_shown|].
  assert (Hy : In (latitude (attrs r)) (geometry_y g)).
  { unfold geometry_y. apply in_map_iff. exists r. rewrite Hpoint. auto. }
  assert (Hx : In (longitude (attrs r)) (geometry_x g)).
  { unfold geometry_x. apply in_map_iff. exists r. rewrite Hpoint. auto. }
  destruct (column_value_bounded _ _ Hy Hlat).
  destruct (column_value_bounded _ _ Hx Hlon).
  auto.
Qed.

(** *** The image tag *)

(** X11: [get_image] tells photos apart: for two ids found in the
    photos table whose first rows hold different bytes, the tags
    returned differ. *)
Theorem image_tags_distinguish_photos (self : Mapper) (pid1 pid2 : Z)
  (p1 p2 : Photo.t) :
  first_photo (imgdf self) pid1 = Some p1 ->
  first_photo (imgdf self) pid2 = Some p2 ->
  Photo.photo p1 <> Photo.photo p2 ->
  fst (fst (get_image pid1 self)) <> fst (fst (get_image pid2 self)).
Proof.
  intros H1 H2 Hne Heq. apply Hne.
  rewrite !get_image_eq in Heq. cbn [fst] in Heq. unfold image_of in Heq.
  rewrite H1, H2 in Heq.
  assert (E : img_payload
                (img_prefix ++ Base64.b64encode (Photo.photo p1) ++ img_suffix)
              = img_payload
                  (img_prefix ++ Base64.b64encode (Photo.photo p2)
                   ++ img_suffix))
    by congruence.
  rewrite !img_payload_tag in E.
  assert (D : Base64.b64decode (Base64.b64encode (Photo.photo p1))
              = Base64.b64decode (Base64.b64encode (Photo.photo p2)))
    by congruence.
  rewrite !Base64Facts.b64decode_b64encode in D. congruence.
Qed.

Lemma b64encode_chars (bs : list byte) :
  Forall (fun c => In c Base64.alphabet \/ c = pad)
         (list_ascii_of_string (Base64.b64encode bs)).
Proof.
  induction bs as [|a|a b|a b c rest IH] using Base64Facts.list_ind3;
    cbn [Base64.b64encode list_ascii_of_string];
    repeat (apply Forall_cons;
            [first [left; apply Base64Facts.b64chr_in_alphabet
                   |right; reflexivity] |]);
    first [apply Forall_nil | exact IH].
Qed.

Lemma b64encode_length (bs : list byte) :
  String.length (Base64.b64encode bs)
  = (4 * ((List.length bs + 2) / 3))%nat.
Proof.
  induction bs as [|a|a b|a b c rest IH] using Base64Facts.list_ind3;
    try reflexivity.
  cbn [Base64.b64encode String.length List.length]. rewrite IH.
  replace (S (S (S (List.length rest))) + 2)%nat
    with ((List.length rest + 2) + 1 * 3)%nat by lia.
  rewrite Nat.div_add by discriminate. lia.
Qed.

Lemma length_append (a b : string) :
  String.length (a ++ b) = (String.length a + String.length b)%nat.
Proof.
  induction a as [|x a IH]; cbn.
  - reflexivity.
  - rewrite IH. reflexivity.
Qed.

(** X12: the tag [get_image] returns for a photo of n bytes is the fixed
    opening, then 4 * ceil(n / 3) characters that are letters, digits,
    [+], [/] or [=], then the fixed closing: the image bytes never put
    a quote or an angle bracket into the popup, and the tag is
    60 + 4 * ceil(n / 3) characters long. *)
Theorem image_tag_shape (self : Mapper) (pid : Z) (p : Photo.t) :
  first_photo (imgdf self) pid = Some p ->
  exists payload,
    fst (fst (get_image pid self))
    = Ok (img_prefix ++ payload ++ img_suffix)
    /\ Forall (fun c => In c Base64.alphabet \/ c = pad)
              (list_ascii_of_string payload)
    /\ String.length payload
       = (4 * ((List.length (Photo.photo p) + 2) / 3))%nat
    /\ String.length (img_prefix ++ payload ++ img_suffix)
       = (60 + 4 * ((List.length (Photo.photo p) + 2) / 3))%nat.
Proof.
  intros Hp. exists (Base64.b64encode (Photo.photo p)).
  rewrite get_image_eq. cbn [fst]. unfold image_of. rewrite Hp.
  split; [reflexivity|]. split; [apply b64encode_chars|].
  split; [apply b64encode_length|].
  rewrite !length_append, b64encode_length.
  change (String.length img_prefix) with 33%nat.
  change (String.length img_suffix) with 27%nat. lia.
Qed.

(** *** A centre folium refuses *)

Lemma mean_without_values (xs : list float) :
  Series.dropna xs = [] -> is_nan (Series.mean xs) = true.
Proof. intros E. unfold Series.mean. rewrite E. reflexivity. Qed.

(** X14: on a frame one of whose coordinate columns has no value that
    is not NaN, an empty frame among them, the mean centre holds a NaN
    and [folium.Map] raises ValueError: [plot_popups] raises it after
    it has set the CRS and converted the timestamp column of the frame,
    and before anything else: nothing is printed, no file is written
    and [map] is what it was.  [execute] on a table without rows
    prints the two frames and raises the same exception. *)
Theorem nan_centre_stops_plot_popups (self : Mapper) :
  (forall g : Frame,
     gdf self = Some g ->
     Series.dropna (geometry_y g) = [] \/ Series.dropna (geometry_x g) = [] ->
     plot_popups self
     = (Raise (ValueError "Location values cannot contain NaNs."),
        set_self_gdf (Some (prepared g)) self, [])
     /\ map (state_after plot_popups self) = map self
     /\ saved_files (snd (plot_popups self)) = [])
  /\ (read_sql_table sqlite (table self) (engine self) = Ok [] ->
      exists self',
        execute sqlite self
        = (Raise (ValueError "Location values cannot contain NaNs."), self',
           [Printed [PFrame []];
            Printed [PGeoFrame {| rows := []; crs := None |}]])
        /\ df self' = Some []
        /\ map self' = map self).
Proof.
  split.
  - intros g Hg Hcol.
    assert (Hc : centre_is_nan g = true).
    { unfold centre_is_nan, center_of. cbn [existsb].
      destruct Hcol as [E|E]; rewrite (mean_without_values _ E).
      - reflexivity.
      - apply orb_true_iff. right. reflexivity. }
    pose proof (plot_popups_raises self g Hg Hc) as Hrun.
    split; [exact Hrun|]. unfold state_after. rewrite Hrun.
    split; reflexivity.
  - intros Hread. eexists. unfold execute.
    unfold bind at 1. unfold set_df at 1. rewrite Hread.
    unfold bind at 1. unfold set_gdf at 1. cbn [df set_self_df].
    rewrite (plot_popups_raises
               (set_self_gdf
                  (Some (GeoDataFrame_of []
                           (points_from_xy (List.map longitude [])
                              (List.map latitude []))))
                  (set_self_df (Some []) self))
               _ eq_refl eq_refl).
    repeat split.
Qed.

End LeakMapperFacts.

(** ** The theorems at concrete inputs *)

Import Scenario.

(** C1 (as amended) at the two-row table, for its first row. *)
Lemma plot_popups_one_marker_per_row_witness :
  exists self' out m nonzero zeros,
    plot_popups (projected [row1; row2]) = (Ok tt, self', out)
    /\ map self' = Some m
    /\ layers_of m = [nonzero; zeros]
    /\ folium.markers nonzero = [marker_of photos_df (geo row1)]
    /\ folium.markers zeros = [marker_of photos_df (geo row2)].
Proof.
  destruct (plot_popups_one_marker_per_row
              (projected [row1; row2]) (frame [row1; row2])
              [] [geo row2] (geo row1)
              eq_refl eq_refl eq_refl eq_refl eq_refl)
    as (self' & out & m & nonzero & zeros
        & Hrun & Hmap & Hlayers & _ & _ & _ & Hnz & Hz).
  exists self', out, m, nonzero, zeros.
  repeat split; assumption.
Defined.

(** At a table of two rows whose latitudes are plus and minus infinity
    the claim of C1 fails: neither coordinate of either row is NaN, the
    mean latitude is NaN, [folium.Map] raises ValueError and no marker
    is produced for any row: there is no map. *)
Lemma infinite_latitudes_stop_the_build :
  forallb (fun r => negb (is_nan (latitude r)) && negb (is_nan (longitude r)))
    [row_inf_lat; row_ninf_lat] = true
  /\ gdf (projected [row_inf_lat; row_ninf_lat])
     = Some (frame [row_inf_lat; row_ninf_lat])
  /\ plot_popups (projected [row_inf_lat; row_ninf_lat])
     = (Raise (ValueError "Location values cannot contain NaNs."),
        state_after plot_popups (projected [row_inf_lat; row_ninf_lat]), [])
  /\ map (state_after plot_popups (projected [row_inf_lat; row_ninf_lat]))
     = None.
Proof. repeat split; vm_compute; reflexivity. Qed.



(** At the two-row table the centre of C3 is not the centre of the map:
    the map has latitude first. *)
Lemma scenario_center_is_not_longitude_first :
  option_map folium.center (map (executed [row1; row2]))
  = Some [43.25%float; (-70.25)%float]
  /\ option_map folium.center (map (executed [row1; row2]))
     <> Some [(-70.25)%float; 43.25%float].
Proof.
  split.
  - vm_compute. reflexivity.
  - intros H.
    apply (f_equal (fun o => match o with
                             | Some (a :: _) => (a <? 0)%float
                             | _ => false
                             end)) in H.
    vm_compute in H. discriminate H.
Qed.

Lemma not_in_photos_99 : ~ In 99 (List.map Photo.photo_id photos_df).
Proof. intros [H|[]]. discriminate H. Qed.

(** C3 (as amended) at the concrete database. *)
Lemma two_row_scenario_witness :
  exists mapper self' out m,
    new (sqlite [row1; row2])
      ["data/methane_project_DB"; "measurements"; "portland"]
    = (Ok mapper, [])
    /\ execute (sqlite [row1; row2]) mapper = (Ok tt, self', out)
    /\ map self' = Some m
    /\ List.map (fun l => List.length (folium.markers l)) (layers_of m)
       = [1%nat; 1%nat]
    /\ folium.center m = [43.25%float; (-70.25)%float]
    /\ fitted m = [[[43.0%float; (-70.5)%float];
                    [43.5%float; (-70.0)%float]]].
Proof.
  destruct (two_row_scenario (sqlite [row1; row2])
              "data/methane_project_DB" "measurements" "portland"
              photos_df 12 0
              (Datetime "2023-07-12 10:15:00")
              (Datetime "2023-07-12 10:40:00")
              "valve" "meter"
              eq_refl eq_refl (or_introl eq_refl) not_in_photos_99)
    as (mapper & self' & out & m & mk1 & mk2
        & Hnew & Hrun & Hmap & Hlayers & _ & _ & _ & _ & Hc & Hb).
  exists mapper, self', out, m.
  repeat split; try assumption.
  rewrite Hlayers. reflexivity.
Defined.

(** After [set_gdf] alone the frame of C4 has no CRS. *)
Lemma set_gdf_assigns_no_crs :
  option_map crs (gdf (projected [row1; row2])) = Some None
  /\ option_map crs (gdf (projected [row1; row2])) <> Some (Some 4326).
Proof.
  split.
  - reflexivity.
  - cbn. discriminate.
Qed.

(** C4 (as amended) at the two-row table, loaded by [set_df]. *)
Lemma set_gdf_pairs_points_without_crs_witness :
  exists g,
    set_gdf (after_calls (sqlite [row1; row2]) [SetDf] fresh)
    = (Ok tt,
       set_self_gdf (Some g)
         (after_calls (sqlite [row1; row2]) [SetDf] fresh),
       [Printed [PGeoFrame g]])
    /\ List.map (fun r => geometry r) (rows g)
       = [Point.make (-70.0)%float 43.0%float;
          Point.make (-70.5)%float 43.5%float]
    /\ crs g = None
    /\ option_map crs
         (gdf (state_after plot_popups
                 (set_self_gdf (Some g)
                    (after_calls (sqlite [row1; row2]) [SetDf] fresh))))
       = Some (Some 4326).
Proof.
  destruct (set_gdf_pairs_points_without_crs
              (after_calls (sqlite [row1; row2]) [SetDf] fresh)
              [row1; row2] eq_refl)
    as (g & Hrun & _ & Hgeo & Hcrs & g' & Hg' & Hcrs' & _).
  exists g.
  split; [exact Hrun|]. split; [exact Hgeo|]. split; [exact Hcrs|].
  rewrite Hg'. cbn [option_map]. rewrite Hcrs'. reflexivity.
Defined.


(** C6 at photo 99, which the photos table does not hold, and at the
    second row of the two-row table, which refers to it. *)
Lemma get_image_missing_photo_placeholder_witness :
  get_image 99 fresh =
  (Ok "<p>No image available</p>", fresh,
   [Printed [PStr "No matching image found for photo_id == 99"]])
  /\ exists self' out m nonzero zeros mk,
       plot_popups (projected [row1; row2]) = (Ok tt, self', out)
       /\ saved_files out = [("portland_maine_map.html", m)]
       /\ In (missing_line 99) out
       /\ layers_of m = [nonzero; zeros]
       /\ folium.markers zeros = [mk]
       /\ folium.location mk = [43.5%float; (-70.5)%float]
       /\ Contains "No image available" (folium.popup mk).
Proof.
  split.
  - exact (proj1 (get_image_missing_photo_placeholder fresh 99
                    not_in_photos_99)).
  - destruct (proj1 (proj2 (proj2 (proj2
                (get_image_missing_photo_placeholder
                   (projected [row1; row2]) 99 not_in_photos_99))))
                (frame [row1; row2]) [geo row1] [] (geo row2)
                eq_refl eq_refl eq_refl eq_refl eq_refl)
      as (self' & out & m & nonzero & zeros & mk
          & Hrun & _ & Hsaved & Hline & Hlayers & Hloc & Hpop & _ & Hz).
    exists self', out, m, nonzero, zeros, mk.
    repeat split; assumption.
Defined.

(** C7 at a new object. *)
Lemma stage_without_input_returns_early_witness :
  set_gdf fresh =
  (Ok tt, fresh, [Printed [PStr "DataFrame is not set. Call set_df() first."]])
  /\ plot_popups fresh =
     (Ok tt, fresh,
      [Printed [PStr "GeoDataFrame is not set. Call set_gdf() first."]]).
Proof.
  split.
  - exact (proj1 (stage_without_input_returns_early fresh) eq_refl).
  - exact (proj2 (stage_without_input_returns_early fresh) eq_refl).
Defined.

(** With a row whose latitude alone is missing, the fitted bounds of C8
    are not those of the placed points: the row is not placed, and its
    longitude is counted. *)
Lemma bounds_count_rows_that_are_not_placed :
  option_map fitted (map (executed [row1; row_nan_lat]))
  = Some [[[43.0%float; (-80.0)%float]; [43.0%float; (-70.0)%float]]]
  /\ placed_bounds (frame [row1; row_nan_lat])
     = [[43.0%float; (-70.0)%float]; [43.0%float; (-70.0)%float]]
  /\ option_map fitted (map (executed [row1; row_nan_lat]))
     <> Some [placed_bounds (frame [row1; row_nan_lat])].
Proof.
  split; [vm_compute; reflexivity|].
  split; [vm_compute; reflexivity|].
  intros H.
  apply (f_equal (fun o => match o with
                           | Some [[[_; lon]; _]] => (lon <? -75)%float
                           | _ => false
                           end)) in H.
  vm_compute in H. discriminate H.
Qed.

(** C8 (as amended) at the two-row table, where every row is placed. *)
Lemma fit_bounds_over_geometry_columns_witness :
  exists self' out m,
    plot_popups (projected [row1; row2]) = (Ok tt, self', out)
    /\ map self' = Some m
    /\ fitted m = [[[43.0%float; (-70.5)%float];
                    [43.5%float; (-70.0)%float]]]
    /\ folium.viewport m
       = folium.Fitted [[43.0%float; (-70.5)%float];
                        [43.5%float; (-70.0)%float]]
    /\ fitted m = [placed_bounds (frame [row1; row2])].
Proof.
  destruct (fit_bounds_over_geometry_columns
              (projected [row1; row2]) (frame [row1; row2]) eq_refl eq_refl)
    as (self' & out & m & rest & Hrun & Hmap & _ & _ & _ & Hfit & Hview
        & _ & _ & _ & _ & Hall).
  exists self', out, m.
  split; [exact Hrun|]. split; [exact Hmap|].
  split; [exact Hfit|]. split; [exact Hview|]. exact (Hall eq_refl).
Defined.

(** C10 at the concrete database, followed by a few calls. *)
Lemma init_reads_photos_eagerly_witness :
  init (sqlite [row1; row2]) "data/methane_project_DB" "measurements"
    "portland" = (Ok fresh, [])
  /\ imgdf (after_calls (sqlite [row1; row2])
              [Execute; GetImage 99; CloseConnection; PlotPopups] fresh)
     = photos_df.
Proof.
  destruct (proj2 (init_reads_photos_eagerly (sqlite [row1; row2])
                     "data/methane_project_DB" "measurements" "portland")
              photos_df eq_refl)
    as (self & Hinit & _ & Hkeep).
  split.
  - reflexivity.
  - assert (E : fresh = self).
    { apply (f_equal (fun r => match fst r with
                               | Ok s => s
                               | Raise _ => fresh
                               end)) in Hinit.
      exact Hinit. }
    rewrite E. apply Hkeep.
Defined.

(** X2 at a database without the table. *)
Lemma execute_stops_when_read_fails_witness :
  execute sqlite_down fresh =
  (Raise (DatabaseError "no such table"), fresh,
   [Printed [PStr "Error retrieving data from databse.";
             PExn (DatabaseError "no such table")]]).
Proof.
  exact (proj1 (execute_stops_when_read_fails sqlite_down fresh
                  (DatabaseError "no such table") eq_refl)).
Defined.

(** X3 at the two-row table. *)
Lemma construct_and_execute_saves_one_file_witness :
  exists mapper self' out m,
    new (sqlite [row1; row2])
      ["data/methane_project_DB"; "measurements"; "portland"]
    = (Ok mapper, [])
    /\ execute (sqlite [row1; row2]) mapper = (Ok tt, self', out)
    /\ map self' = Some m
    /\ saved_files out = [("portland_maine_map.html", m)].
Proof.
  destruct (construct_and_execute_saves_one_file (sqlite [row1; row2])
              "data/methane_project_DB" "measurements" "portland"
              photos_df [row1; row2] eq_refl eq_refl eq_refl eq_refl)
    as (mapper & self' & out & m & g & middle
        & Hnew & Hrun & _ & Hmap & Hsaved & _).
  exists mapper, self', out, m. repeat split; assumption.
Defined.


(** X6 at the two-row table: one line, for photo 99. *)
Lemma plot_popups_output_witness :
  exists self' out m,
    plot_popups (projected [row1; row2]) = (Ok tt, self', out)
    /\ map self' = Some m
    /\ out = [missing_line 99;
              Saved "portland_maine_map.html" m;
              Printed [PStr "Map has been saved to portland_maine_map.html"]].
Proof.
  destruct (plot_popups_output (projected [row1; row2])
              (frame [row1; row2]) eq_refl eq_refl)
    as (self' & out & m & Hrun & Hmap & Hout).
  exists self', out, m. repeat split; assumption.
Defined.

(** X8 at the two-row table, whose timestamp column is a datetime
    column. *)
Lemma plot_popups_converts_only_timestamps_witness :
  exists g',
    gdf (state_after plot_popups (projected [row1; row2])) = Some g'
    /\ crs g' = Some 4326
    /\ List.map (fun r => timestamp (attrs r)) (rows g')
       = [Text "2023-07-12 10:15:00"; Text "2023-07-12 10:40:00"].
Proof.
  destruct (plot_popups_converts_only_timestamps (projected [row1; row2])
              (frame [row1; row2]) eq_refl)
    as (g' & Hgdf & Hcrs & _ & Hconv & _).
  exists g'.
  split; [exact Hgdf|]. split; [exact Hcrs|].
  exact (proj2 (Hconv eq_refl)).
Defined.

(** X9 from a new object. *)
Lemma calls_keep_geometry_consistent_witness :
  gdf_consistent
    (after_calls (sqlite [row1; row2; row_nan_lat])
       [PlotPopups; Execute; SetGdf; PlotPopups] fresh).
Proof.
  exact (calls_keep_geometry_consistent (sqlite [row1; row2; row_nan_lat])
           [PlotPopups; Execute; SetGdf; PlotPopups] fresh I).
Defined.

Lemma frame_geometry_matches :
  geometry_matches (frame [row1; row2; row_nan_lat]).
Proof. repeat constructor. Qed.

(** X10 at a table of two placed rows and one without latitude. *)
Lemma markers_lie_inside_fitted_bounds_witness :
  exists self' out m min_lat min_lon max_lat max_lon,
    plot_popups (projected [row1; row2; row_nan_lat]) = (Ok tt, self', out)
    /\ map self' = Some m
    /\ fitted m = [[[min_lat; min_lon]; [max_lat; max_lon]]]
    /\ forall mk,
         In mk (flat_map folium.markers (layers_of m)) ->
         exists lat lon,
           folium.location mk = [lat; lon]
           /\ (min_lat <=? lat)%float = true
           /\ (lat <=? max_lat)%float = true
           /\ (min_lon <=? lon)%float = true
           /\ (lon <=? max_lon)%float = true.
Proof.
  exact (markers_lie_inside_fitted_bounds
           (projected [row1; row2; row_nan_lat])
           (frame [row1; row2; row_nan_lat]) eq_refl
           frame_geometry_matches eq_refl).
Defined.

(** X11 at ids 1 and 2 of the three-photo table. *)
Lemma image_tags_distinguish_photos_witness :
  fst (fst (get_image 1 two_photos)) <> fst (fst (get_image 2 two_photos)).
Proof.
  apply (image_tags_distinguish_photos two_photos 1 2
           (Photo.make 1 jpeg) (Photo.make 2 [x00; x01]) eq_refl eq_refl).
  discriminate.
Defined.

(** X12 at photo 1, four bytes long. *)
Lemma image_tag_shape_witness :
  exists payload,
    fst (fst (get_image 1 fresh)) = Ok (img_prefix ++ payload ++ img_suffix)
    /\ String.length payload = 8%nat
    /\ String.length (img_prefix ++ payload ++ img_suffix) = 68%nat.
Proof.
  destruct (image_tag_shape fresh 1 (Photo.make 1 jpeg) eq_refl)
    as (payload & Htag & _ & Hlen & Htotal).
  exists payload. repeat split; assumption.
Defined.

(** X14 at a table whose only row has no latitude, and at an empty
    table. *)
Lemma nan_centre_stops_plot_popups_witness :
  plot_popups (projected [row_nan_lat])
  = (Raise (ValueError "Location values cannot contain NaNs."),
     set_self_gdf (Some (prepared (frame [row_nan_lat])))
       (projected [row_nan_lat]), [])
  /\ map (state_after plot_popups (projected [row_nan_lat])) = None
  /\ exists self',
       execute (sqlite []) fresh
       = (Raise (ValueError "Location values cannot contain NaNs."), self',
          [Printed [PFrame []];
           Printed [PGeoFrame {| rows := []; crs := None |}]])
       /\ df self' = Some []
       /\ map self' = None.
Proof.
  destruct (proj1 (nan_centre_stops_plot_popups (sqlite [row_nan_lat])
                     (projected [row_nan_lat]))
              (frame [row_nan_lat]) eq_refl (or_introl eq_refl))
    as (Hrun & Hmap & _).
  split; [exact Hrun|]. split; [exact Hmap|].
  exact (proj2 (nan_centre_stops_plot_popups (sqlite []) fresh) eq_refl).
Defined.
